(** * The EVM module's genesis import and its virtual frontier contracts

    A shallow embedding of
      - [x/evm/types/virtual_frontier_bank_contract.go]
        ([VFBankContractMetadata.ValidateBasic], [GetMethodFromSignature]),
      - [x/evm/genesis.go] ([InitGenesis]),
      - the test tables of [x/evm/types/virtual_frontier_contract_test.go],
    together with the library functions they call (Go's [encoding/hex] and
    [strings], go-ethereum's [common]). *)

From Stdlib Require Import List String Ascii Bool NArith ZArith Arith Lia.
From Stdlib Require Import DecimalString DecimalN.
From Stdlib.Strings Require Import Byte.
Import ListNotations.

Local Open Scope string_scope.
Local Open Scope list_scope.

(** ** Go strings and byte slices

    A Go [string] is a sequence of bytes; so is Rocq's [string] (a list of
    8-bit [ascii]).  A [[]byte] is a [list byte]. *)

Definition bytes := list byte.

(** [len(s)] *)
Definition len (s : string) : nat := String.length s.

(** [s[n:]] for a string: [None] is the run-time panic
    "slice bounds out of range" that Go raises when [n > len(s)]. *)
Fixpoint slice_from (n : nat) (s : string) : option string :=
  match n, s with
  | O, _ => Some s
  | S _, EmptyString => None
  | S n', String _ s' => slice_from n' s'
  end.

(** [strings.HasPrefix] *)
Definition HasPrefix (s p : string) : bool := String.prefix p s.

Definition in_range (lo hi : ascii) (c : ascii) : bool :=
  ((N_of_ascii lo <=? N_of_ascii c) && (N_of_ascii c <=? N_of_ascii hi))%N.

(** Go's [isASCII] test in [strings.ToLower] and [strings.ToUpper]: no
    byte of the text is [utf8.RuneSelf] (0x80) or above. *)
Definition isASCII (s : string) : bool :=
  forallb (fun c => (N_of_ascii c <? 128)%N) (list_ascii_of_string s).

(** [strings.ToLower] and [strings.ToUpper] as Go computes them for text
    that [isASCII]: byte by byte, the letters change case and every other
    byte stays.  For other text Go maps every Unicode letter and rewrites
    invalid UTF-8, which these definitions do not follow: they stand for
    Go's functions on ASCII text only, which is what hex text is and what
    a statement about their value has to assume of a denomination. *)
Definition lower_ascii (c : ascii) : ascii :=
  if in_range "A" "Z" c then ascii_of_N (N_of_ascii c + 32) else c.

Definition upper_ascii (c : ascii) : ascii :=
  if in_range "a" "z" c then ascii_of_N (N_of_ascii c - 32) else c.

Fixpoint ToLower (s : string) : string :=
  match s with
  | EmptyString => EmptyString
  | String c s' => String (lower_ascii c) (ToLower s')
  end.

Fixpoint ToUpper (s : string) : string :=
  match s with
  | EmptyString => EmptyString
  | String c s' => String (upper_ascii c) (ToUpper s')
  end.

(** ** [encoding/hex] *)

Module hex.

Definition hextable : string := "0123456789abcdef".

(** [hextable[i]] *)
Definition hexdigit (i : N) : ascii :=
  match String.get (N.to_nat i) hextable with
  | Some c => c
  | None => "0"%char
  end.

(** [hex.EncodeToString]: for each byte [v], [hextable[v>>4]] then
    [hextable[v&0x0f]]. *)
Fixpoint EncodeToString (src : bytes) : string :=
  match src with
  | [] => EmptyString
  | v :: rest =>
      String (hexdigit (N.shiftr (Byte.to_N v) 4))
        (String (hexdigit (N.land (Byte.to_N v) 15))
           (EncodeToString rest))
  end.

(** [reverseHexTable[c]]: the value of a hex digit, [None] for the
    table's 0xff entries. *)
Definition fromHexChar (c : ascii) : option N :=
  if in_range "0" "9" c then Some (N_of_ascii c - 48)%N
  else if in_range "a" "f" c then Some (N_of_ascii c - 97 + 10)%N
  else if in_range "A" "F" c then Some (N_of_ascii c - 65 + 10)%N
  else None.

Inductive error :=
| InvalidByteError (c : ascii)
| ErrLength.

(** [(a << 4) | b] as a byte *)
Definition join_nibbles (a b : N) : byte :=
  match Byte.of_N (N.lor (N.shiftl a 4) b) with
  | Some v => v
  | None => x00
  end.

(** [hex.DecodeString]: decodes pair by pair and returns the bytes
    decoded before the first error together with that error. *)
Fixpoint DecodeString (s : string) : bytes * option error :=
  match s with
  | EmptyString => ([], None)
  | String p EmptyString =>
      match fromHexChar p with
      | None => ([], Some (InvalidByteError p))
      | Some _ => ([], Some ErrLength)
      end
  | String p (String q rest) =>
      match fromHexChar p with
      | None => ([], Some (InvalidByteError p))
      | Some a =>
          match fromHexChar q with
          | None => ([], Some (InvalidByteError q))
          | Some b =>
              let (tl, err) := DecodeString rest in
              (join_nibbles a b :: tl, err)
          end
      end
  end.

End hex.

(** ** [x/evm/types/virtual_frontier_bank_contract.go] *)

(** [type VFBankContractMethod uint8], with its [iota] constants. *)
Inductive VFBankContractMethod :=
| VFBCmUnknown
| VFBCmName
| VFBCmSymbol
| VFBCmDecimals
| VFBCmTotalSupply
| VFBCmBalanceOf
| VFBCmTransfer.

Definition VFBankContractMethod_to_uint8 (m : VFBankContractMethod) : N :=
  match m with
  | VFBCmUnknown => 0
  | VFBCmName => 1
  | VFBCmSymbol => 2
  | VFBCmDecimals => 3
  | VFBCmTotalSupply => 4
  | VFBCmBalanceOf => 5
  | VFBCmTransfer => 6
  end.

(** The metadata of a virtual frontier bank contract; [Exponent] is a
    [uint32]. *)
Record VFBankContractMetadata := {
  MinDenom : string;
  Exponent : N;
  DisplayName : string;
}.

(** Go's [error]: [None] is [nil]. *)
Definition error := option string.

Module VFBankContractMetadata_.

(** [func (m *VFBankContractMetadata) ValidateBasic() error] *)
Definition ValidateBasic (m : VFBankContractMetadata) : error :=
  if (len (MinDenom m) =? 0)%nat
  then Some "min denom cannot be empty"
  else None.

(** [func (m *VFBankContractMetadata) GetMethodFromSignature(input []byte)
    (method VFBankContractMethod, found bool)] *)
Definition GetMethodFromSignature
    (m : VFBankContractMetadata) (input : bytes)
  : VFBankContractMethod * bool :=
  if (List.length input <? 4)%nat then (VFBCmUnknown, false)
  else
    let sig := ToLower (hex.EncodeToString (firstn 4 input)) in
    if sig =? "06fdde03" then (VFBCmName, true)
    else if sig =? "95d89b41" then (VFBCmSymbol, true)
    else if sig =? "313ce567" then (VFBCmDecimals, true)
    else if sig =? "18160ddd" then (VFBCmTotalSupply, true)
    else if sig =? "70a08231" then (VFBCmBalanceOf, true)
    else if sig =? "a9059cbb" then (VFBCmTransfer, true)
    else (VFBCmUnknown, false).

End VFBankContractMetadata_.

(** ** go-ethereum's [common] package *)

Module common.

Definition AddressLength : nat := 20.
Definition HashLength : nat := 32.

(** [common.Address] is [[20]byte] and [common.Hash] is [[32]byte]; both
    are kept as byte lists, which every function below returns at the
    array's length. *)
Definition Address := bytes.
Definition Hash := bytes.

(** [has0xPrefix] *)
Definition has0xPrefix (str : string) : bool :=
  match str with
  | String c0 (String c1 _) =>
      Ascii.eqb c0 "0" && (Ascii.eqb c1 "x" || Ascii.eqb c1 "X")
  | _ => false
  end.

(** [Hex2Bytes]: [hex.DecodeString] with the error dropped. *)
Definition Hex2Bytes (str : string) : bytes := fst (hex.DecodeString str).

(** [FromHex]: strips one [0x]/[0X] prefix, pads an odd length with a
    leading ['0'], and decodes. *)
Definition FromHex (s : string) : bytes :=
  let s := if has0xPrefix s then String.substring 2 (len s - 2) s else s in
  let s := if Nat.odd (len s) then String "0" s else s in
  Hex2Bytes s.

(** [SetBytes] on a zeroed array of [n] bytes: the last [n] bytes of
    [b], right-aligned. *)
Definition setBytes (n : nat) (b : bytes) : bytes :=
  let b := if (n <? List.length b)%nat then skipn (List.length b - n) b else b in
  repeat x00 (n - List.length b) ++ b.

Definition BytesToAddress (b : bytes) : Address := setBytes AddressLength b.
Definition BytesToHash (b : bytes) : Hash := setBytes HashLength b.
Definition HexToAddress (s : string) : Address := BytesToAddress (FromHex s).
Definition HexToHash (s : string) : Hash := BytesToHash (FromHex s).

(** [common.Address{}] *)
Definition zeroAddress : Address := repeat x00 AddressLength.

End common.

(** [bytes.Equal] *)
Fixpoint bytes_Equal (a b : bytes) : bool :=
  match a, b with
  | [], [] => true
  | x :: a', y :: b' => Byte.eqb x y && bytes_Equal a' b'
  | _, _ => false
  end.

(** ** The genesis document ([x/evm/types]) *)

(** [types.State]: one storage slot of a genesis account. *)
Record State := {
  Key : string;
  Value : string;
}.

Record GenesisAccount := {
  Address : string;
  Code : string;
  Storage : list State;
}.

(** [types.Params]: the two fields [InitGenesis] reads. *)
Record Params := {
  EvmDenom : string;
  EnableCreate : bool;
}.

(** [types.VirtualFrontierContract]; [Type] is a [uint32]. *)
Record VirtualFrontierContract := {
  vfcAddress : string;
  Active : bool;
  Type_ : N;
  Metadata : bytes;
}.

Record GenesisState := {
  Accounts : list GenesisAccount;
  params : Params;
  VirtualFrontierContracts : list VirtualFrontierContract;
}.

(** [banktypes.DenomUnit] and [banktypes.Metadata], with the fields the
    import sets (the others keep their zero value). *)
Record DenomUnit := {
  duDenom : string;
  duExponent : N;
}.

Record BankMetadata := {
  DenomUnits : list DenomUnit;
  Base : string;
  Display : string;
  Name : string;
  Symbol : string;
}.

(** An account as [InitGenesis] sees it through [authtypes.AccountI]:
    [ethCodeHash] is [Some h] when the account implements
    [ethermint.EthAccountI], with [h] its [GetCodeHash()], and [None] when
    the type assertion [acc.(ethermint.EthAccountI)] fails. *)
Record AccountI := {
  accSequence : N;
  ethCodeHash : option common.Hash;
}.

(** [authtypes.ModuleAccountI], with its [GetSequence()]. *)
Record ModuleAccountI := {
  GetSequence : N;
}.

(** [abci.ValidatorUpdate] *)
Record ValidatorUpdate := {
  PubKey : bytes;
  Power : Z;
}.

(** [uint64] arithmetic wraps. *)
Definition uint64 (n : N) : N := (n mod 2 ^ 64)%N.

(** ** Panics and the import monad *)

(** The values [InitGenesis] panics with, one constructor per [panic]
    site, carrying what the message is formatted from. *)
Inductive Panic :=
| EnableCreateNotAllowed
    (* "enable create is not allowed on Dymension chains" *)
| ErrorSettingParams (err : string)
    (* "error setting params %s" *)
| EvmModuleAccountNotSet
    (* "the EVM module account has not been set" *)
| VfcDeployerAccountNotSet
    (* "the VFC deployer account has not been set" *)
| AccountNotFound (address : string)
    (* "account not found for address %s" *)
| NotAnEthAccount (address : string)
    (* "account %s must be an EthAccount interface, got %T" *)
| CodeHashMismatch (address : string) (codeHash ethCodeHash : common.Hash)
    (code : string)
    (* "the evm state code doesn't match with the codehash ..." *)
| InvalidBankDenomMetadata (m : BankMetadata)
    (* "prepared bank denom metadata for native assets is invalid: %v" *)
| DeployError (err : string)
    (* panic(err) after DeployNewVirtualFrontierBankContract *)
| ImportError (err : string)
    (* panic(err) after GenesisImportVirtualFrontierContracts *)
| InvalidDeployerSequence (expect got : N)
    (* "invalid sequence number for deployer account, expect sequence %d
       but got %d" *)
| SliceBoundsOutOfRange (low length : nat).
    (* Go's "runtime error: slice bounds out of range [low:length]" *)

(** The outcome of running code on a world [W]: it returns a value, or it
    panics; both carry the world as the code left it. *)
Inductive Outcome (W A : Type) :=
| Returns (a : A) (w : W)
| Panics (p : Panic) (w : W).
Arguments Returns {W A} a w.
Arguments Panics {W A} p w.

Definition M (W A : Type) := W -> Outcome W A.

Definition ret {W A} (a : A) : M W A := fun w => Returns a w.

Definition bind {W A B} (m : M W A) (k : A -> M W B) : M W B :=
  fun w =>
    match m w with
    | Returns a w' => k a w'
    | Panics p w' => Panics p w'
    end.

Definition panic {W A} (p : Panic) : M W A := fun w => Panics p w.

(** Reading through [ctx], writing through a keeper, and calling a keeper
    method that returns a value. *)
Definition gets {W A} (f : W -> A) : M W A := fun w => Returns (f w) w.
Definition modify {W} (f : W -> W) : M W unit := fun w => Returns tt (f w).
Definition call {W A} (f : W -> A * W) : M W A :=
  fun w => let (a, w') := f w in Returns a w'.

Declare Scope go_scope.
Delimit Scope go_scope with go.
Notation "x <- m ;; k" := (bind m (fun x => k))
  (at level 61, m at next level, right associativity) : go_scope.
Notation "m ;; k" := (bind m (fun _ => k))
  (at level 61, right associativity) : go_scope.

(** [for _, x := range xs { body }] *)
Fixpoint forEach {W A} (xs : list A) (body : A -> M W unit) : M W unit :=
  match xs with
  | [] => ret tt
  | x :: rest => bind (body x) (fun _ => forEach rest body)
  end.

(** ** What [InitGenesis] calls

    [InitGenesis] works on the ledger through [ctx] and three keepers; none
    of them is part of these sources, so they are an interface here, as
    [types.AccountKeeper] and [types.BankKeeper] are in the code.  [World]
    is everything behind [ctx] and the keepers; [DenomMeta] is
    [types.VFBankContractDenomMetadata]. *)
Class Collaborators (World DenomMeta : Type) := {
  (* package utils *)
  IsOneOfDymensionChains : World -> bool;
  IsEthermintDevChain : World -> bool;
  (* package crypto *)
  Keccak256Hash : bytes -> common.Hash;
  (* package types *)
  ModuleName : string;
  ModuleVirtualFrontierContractDeployerName : string;
  CollectMetadataForVirtualFrontierBankContract :
    BankMetadata -> DenomMeta * bool;
  (* keeper.Keeper *)
  WithChainID : World -> World;
  SetParams : Params -> World -> error * World;
  SetCode : bytes -> bytes -> World -> World;
  SetState : common.Address -> common.Hash -> bytes -> World -> World;
  GetVirtualFrontierBankContractAddressByDenom :
    string -> World -> option common.Address;
  DeployNewVirtualFrontierBankContract :
    VirtualFrontierContract -> VFBankContractMetadata -> DenomMeta ->
    World -> (string + common.Address) * World;
  GenesisImportVirtualFrontierContracts :
    list VirtualFrontierContract -> World -> error * World;
  (* the records [IterateVirtualFrontierContracts] visits, in its order *)
  StoredVirtualFrontierContracts : World -> list VirtualFrontierContract;
  (* types.AccountKeeper; the SDK's [GetModuleAccount] creates the account
     when it is missing, so it hands back a world *)
  GetModuleAddress : string -> World -> option bytes;
  GetAccount : bytes -> World -> option AccountI;
  GetModuleAccount : string -> World -> ModuleAccountI * World;
  (* types.BankKeeper *)
  GetDenomMetaData : string -> World -> option BankMetadata;
  SetDenomMetaData : BankMetadata -> World -> World;
}.

(** ** [x/evm/genesis.go] *)

Section Genesis.

Context {World DenomMeta : Type} `{K : Collaborators World DenomMeta}.

Local Open Scope go_scope.

(** Modelled from the spec: [k.IterateVirtualFrontierContracts] (in the
    keeper, not in these sources) visits the persisted records in their
    stable order and stops when the callback returns [true].  The
    callback's captured variables are the accumulator [acc]. *)
Fixpoint iterate {A} (records : list VirtualFrontierContract)
    (cb : VirtualFrontierContract -> A -> A * bool) (acc : A) : A :=
  match records with
  | [] => acc
  | r :: rest =>
      let (acc', stop) := cb r acc in
      if stop then acc' else iterate rest cb acc'
  end.

Definition IterateVirtualFrontierContracts {A} (ctx : World)
    (cb : VirtualFrontierContract -> A -> A * bool) (acc : A) : A :=
  iterate (StoredVirtualFrontierContracts ctx) cb acc.

(** Lines 43-45: the policy precheck. *)
Definition policyPrecheck (data : GenesisState) : M World unit :=
  ctx <- gets (fun w => w) ;;
  if IsOneOfDymensionChains ctx && EnableCreate (params data)
  then panic EnableCreateNotAllowed
  else ret tt.

(** Lines 47-60: chain id, parameters, module accounts. *)
Definition setUp (data : GenesisState) : M World unit :=
  modify WithChainID ;;
  err <- call (SetParams (params data)) ;;
  match err with
  | Some e => panic (ErrorSettingParams e)
  | None =>
      addr <- gets (GetModuleAddress ModuleName) ;;
      match addr with
      | None => panic EvmModuleAccountNotSet
      | Some _ =>
          addr <- gets (GetModuleAddress ModuleVirtualFrontierContractDeployerName) ;;
          match addr with
          | None => panic VfcDeployerAccountNotSet
          | Some _ => ret tt
          end
      end
  end.

(** Lines 63-93: the body of the loop over [data.Accounts]. *)
Definition importAccount (account : GenesisAccount) : M World unit :=
  let address := common.HexToAddress (Address account) in
  let accAddress : bytes := address in
  acc <- gets (GetAccount accAddress) ;;
  match acc with
  | None => panic (AccountNotFound (Address account))
  | Some acc =>
      match ethCodeHash acc with
      | None => panic (NotAnEthAccount (Address account))
      | Some ethAcctCodeHash =>
          let code := common.Hex2Bytes (Code account) in
          let codeHash := Keccak256Hash code in
          if negb (len (Code account) =? 0)%nat
             && negb (bytes_Equal ethAcctCodeHash codeHash)
          then panic (CodeHashMismatch (Address account) codeHash
                        ethAcctCodeHash (Code account))
          else
            modify (SetCode codeHash code) ;;
            forEach (Storage account) (fun storage =>
              modify (SetState address (common.HexToHash (Key storage))
                        (common.HexToHash (Value storage))))
      end
  end.

(** Lines 62-94. *)
Definition importAccounts (accounts : list GenesisAccount) : M World unit :=
  forEach accounts importAccount.

(** Lines 103-148: the branch taken when the lookup by denomination
    reports not-found. *)
Definition deployNativeBankContract (denom : string) : M World unit :=
  let vfBankContractOfNativeMeta :=
    {| MinDenom := denom; Exponent := 0; DisplayName := "" |} in
  found <- gets (GetDenomMetaData denom) ;;
  bankDenomMetadataOfNative <-
    match found with
    | Some m => ret m
    | None =>
        match slice_from 1 denom with
        | None => panic (SliceBoundsOutOfRange 1 (len denom))
        | Some tail =>
            let name := ToUpper tail in
            let m :=
              {| DenomUnits := [ {| duDenom := denom; duExponent := 0 |};
                                 {| duDenom := name; duExponent := 18 |} ];
                 Base := denom;
                 Display := name;
                 Name := name;
                 Symbol := name |} in
            modify (SetDenomMetaData m) ;;
            ret m
        end
    end ;;
  let (denomMetadata, valid) :=
    CollectMetadataForVirtualFrontierBankContract bankDenomMetadataOfNative in
  if negb valid then panic (InvalidBankDenomMetadata bankDenomMetadataOfNative)
  else
    res <- call (DeployNewVirtualFrontierBankContract
                   {| vfcAddress := ""; Active := true; Type_ := 0; Metadata := [] |}
                   vfBankContractOfNativeMeta denomMetadata) ;;
    match res with
    | inl err => panic (DeployError err)
    | inr _contract => ret tt   (* ctx.Logger().Info(...) *)
    end.

(** Lines 96-150: the development-network bootstrap. *)
Definition devnetBootstrap (data : GenesisState) : M World unit :=
  ctx <- gets (fun w => w) ;;
  if IsEthermintDevChain ctx then
    let denom := EvmDenom (params data) in
    found <- gets (GetVirtualFrontierBankContractAddressByDenom denom) ;;
    match found with
    | Some _ => ret tt
    | None => deployNativeBankContract denom
    end
  else ret tt.

(** Lines 152-156. *)
Definition importVirtualFrontierContracts (data : GenesisState) : M World unit :=
  if (0 <? List.length (VirtualFrontierContracts data))%nat then
    err <- call (GenesisImportVirtualFrontierContracts
                   (VirtualFrontierContracts data)) ;;
    match err with
    | Some e => panic (ImportError e)
    | None => ret tt
    end
  else ret tt.

(** Lines 159-163: [deployedVFCsCount], a [uint64] counted up once per
    visited record. *)
Definition deployedVFCsCount (ctx : World) : N :=
  IterateVirtualFrontierContracts ctx
    (fun _ count => (uint64 (count + 1), false)) 0%N.

(** Lines 158-168: the deployer's sequence number against the number of
    records. *)
Definition ensureDeployerSequence : M World unit :=
  count <- gets deployedVFCsCount ;;
  deployerModuleAccount <-
    call (GetModuleAccount ModuleVirtualFrontierContractDeployerName) ;;
  if negb (GetSequence deployerModuleAccount =? count)%N
  then panic (InvalidDeployerSequence count (GetSequence deployerModuleAccount))
  else ret tt.

(** Everything [InitGenesis] does before the final check (lines 43-156). *)
Definition importAll (data : GenesisState) : M World unit :=
  policyPrecheck data ;;
  setUp data ;;
  importAccounts (Accounts data) ;;
  devnetBootstrap data ;;
  importVirtualFrontierContracts data.

(** [func InitGenesis(ctx, k, accountKeeper, bankKeeper, data)
    []abci.ValidatorUpdate] *)
Definition InitGenesis (data : GenesisState) : M World (list ValidatorUpdate) :=
  policyPrecheck data ;;
  setUp data ;;
  importAccounts (Accounts data) ;;
  devnetBootstrap data ;;
  importVirtualFrontierContracts data ;;
  ensureDeployerSequence ;;
  ret [].

(** The storage writes of one account, as the world they leave. *)
Definition storageWritten (address : common.Address) (storage : list State) (w : World) : World :=
  fold_left
    (fun w st => SetState address (common.HexToHash (Key st))
                   (common.HexToHash (Value st)) w)
    storage w.

(** The world an account with a passing code check leaves. *)
Definition accountWritten (account : GenesisAccount) (w : World) : World :=
  let code := common.Hex2Bytes (Code account) in
  storageWritten (common.HexToAddress (Address account)) (Storage account)
    (SetCode (Keccak256Hash code) code w).

(** The sequence number the final check reads at [w]. *)
Definition deployerSequence (w : World) : N :=
  GetSequence (fst (GetModuleAccount ModuleVirtualFrontierContractDeployerName w)).

End Genesis.

(** ** [types.VirtualFrontierContract]: its methods and their tests *)

(** [codec.BinaryCodec], for the one message these sources marshal. *)
Record BinaryCodec := {
  MustMarshal : VFBankContractMetadata -> bytes;
  Unmarshal : bytes -> option VFBankContractMetadata;
}.

(** [strings.Contains] *)
Definition Contains (s substr : string) : bool :=
  match String.index 0 substr s with
  | Some _ => true
  | None => false
  end.

Definition VirtualFrontierContractTypeUnknown : N := 0.
Definition VirtualFrontierContractTypeBankContract : N := 1.

Module VirtualFrontierContract_.

(** Modelled from the spec: [ContractAddress] is not in these sources
    (its test is).  It reads the record's address text with
    [common.HexToAddress], as the test's expected values do: an optional
    [0x] prefix, and the zero address for the empty text. *)
Definition ContractAddress (m : VirtualFrontierContract) : common.Address :=
  common.HexToAddress (vfcAddress m).

(** [format(address)]: lowercase hex with the [0x] prefix. *)
Definition format (a : common.Address) : string :=
  "0x" ++ hex.EncodeToString a.

(** The text of the nil address. *)
Definition nilAddressText : string := format common.zeroAddress.

Definition isHexCharacter (c : ascii) : bool :=
  in_range "0" "9" c || in_range "a" "f" c || in_range "A" "F" c.

(** Exactly 20 bytes of hex, after an optional [0x]. *)
Definition is20ByteHex (s : string) : bool :=
  let s := if HasPrefix s "0x" then String.substring 2 (len s - 2) s else s in
  (len s =? 40)%nat && forallb isHexCharacter (list_ascii_of_string s).

Definition hasUppercaseHex (s : string) : bool :=
  existsb (in_range "A" "F") (list_ascii_of_string s).

(** Modelled from the spec: the metadata check of [ValidateBasic], by
    contract type (section 4.2); only called for a known type. *)
Definition validateMetadata (cdc : BinaryCodec) (m : VirtualFrontierContract)
  : error :=
  match Unmarshal cdc (Metadata m) with
  | None => Some "metadata does not pass validation"
  | Some meta =>
      match VFBankContractMetadata_.ValidateBasic meta with
      | Some _ => Some "metadata does not pass validation"
      | None => None
      end
  end.

(** Modelled from the spec: the checks of [ValidateBasic] that follow the
    nil-address check, in section 4.3's order and with section 7's
    messages: the address text is 20 bytes of hex, starts with the spec's
    [0x] and has no uppercase hex digit; the type is a known one; the
    metadata validates. *)
Definition checkFormatTypeMetadata (cdc : BinaryCodec) (m : VirtualFrontierContract)
  : error :=
  if negb (is20ByteHex (vfcAddress m)) then Some "malformed address"
  else if negb (HasPrefix (vfcAddress m) "0x") then Some "must start with 0x"
  else if hasUppercaseHex (vfcAddress m) then Some "must be lowercase"
  else if negb (Type_ m =? VirtualFrontierContractTypeBankContract)%N
  then Some "type must be specified"
  else validateMetadata cdc m.

(** Modelled from the spec: [ValidateBasic] as section 4.3 words it.  The
    function is not in these sources (its test table is).  The first
    check, "address is not the nil address", is on the address the text
    reads as ([isNilAddress]: all 20 bytes zero), so the empty text, which
    reads as the zero address, is answered by it. *)
Definition ValidateBasic_spec (cdc : BinaryCodec) (m : VirtualFrontierContract)
  : error :=
  if bytes_Equal (ContractAddress m) common.zeroAddress then Some "nil address"
  else checkFormatTypeMetadata cdc m.

(** Modelled from the spec: [ValidateBasic], as section 4.3 words it but
    for the one input on which the test table of these sources says
    otherwise: its case "missing address" wants the empty address text
    answered with "malformed address", so the nil-address check is made
    on a text that is not empty, and the empty text goes on to the format
    check. *)
Definition ValidateBasic (cdc : BinaryCodec) (m : VirtualFrontierContract)
  : error :=
  if negb (vfcAddress m =? "")
     && bytes_Equal (ContractAddress m) common.zeroAddress
  then Some "nil address"
  else checkFormatTypeMetadata cdc m.

(** The address text passes the address checks of [ValidateBasic]: it is
    the canonical text of an address other than the nil one. *)
Definition addressPasses (a : string) : Prop :=
  a <> nilAddressText
  /\ is20ByteHex a = true
  /\ HasPrefix a "0x" = true
  /\ hasUppercaseHex a = false.

End VirtualFrontierContract_.

(** *** [virtual_frontier_contract_test.go] *)

Module Tests.

Record ValidateBasicCase := {
  name : string;
  contract : VirtualFrontierContract;
  wantErr : bool;
  wantErrContains : string;
}.

Definition validVFBankContractMetadata : VFBankContractMetadata :=
  {| MinDenom := "wei"; Exponent := 18; DisplayName := "ETH" |}.

Definition invalidVFBankContractMetadata : VFBankContractMetadata :=
  {| MinDenom := ""; Exponent := 18; DisplayName := "ETH" |}.

Section Table.
Variable cdc : BinaryCodec.

Let validVFBankContractMetadataBz := MustMarshal cdc validVFBankContractMetadata.
Let invalidVFBankContractMetadataBz := MustMarshal cdc invalidVFBankContractMetadata.

Definition bankContract (address : string) (metadata : bytes) :=
  {| vfcAddress := address; Active := true;
     Type_ := VirtualFrontierContractTypeBankContract;
     Metadata := metadata |}.

(** The table of [TestVirtualFrontierContract_ValidateBasic]. *)
Definition ValidateBasic_tests : list ValidateBasicCase :=
  [ {| name := "normal";
       contract := bankContract "0x405b96e2538ac85ee862e332fa634b158d013ae1"
                     validVFBankContractMetadataBz;
       wantErr := false; wantErrContains := "" |};
    {| name := "normal, decimals=6";
       contract := bankContract "0x405b96e2538ac85ee862e332fa634b158d013ae1"
                     validVFBankContractMetadataBz;
       wantErr := false; wantErrContains := "" |};
    {| name := "address can not be the nil one";
       contract := bankContract "0x0000000000000000000000000000000000000000"
                     validVFBankContractMetadataBz;
       wantErr := true; wantErrContains := "nil address" |};
    {| name := "bad format address";
       contract := bankContract "0x405b96e2538ac85ee862e332fa634b158d013ae100"
                     validVFBankContractMetadataBz;
       wantErr := true; wantErrContains := "malformed address" |};
    {| name := "address must start with 0x";
       contract := bankContract "405b96e2538ac85ee862e332fa634b158d013ae1"
                     validVFBankContractMetadataBz;
       wantErr := true; wantErrContains := "start with 0x" |};
    {| name := "address must be lowercase";
       contract := bankContract "0xAA5b96e2538ac85ee862e332fa634b158d013aBB"
                     validVFBankContractMetadataBz;
       wantErr := true; wantErrContains := "lowercase" |};
    {| name := "missing address";
       contract := bankContract "" validVFBankContractMetadataBz;
       wantErr := true; wantErrContains := "malformed address" |};
    {| name := "type must be specified (not set)";
       contract := {| vfcAddress := "0x405b96e2538ac85ee862e332fa634b158d013ae1";
                      Active := true; Type_ := 0;
                      Metadata := validVFBankContractMetadataBz |};
       wantErr := true; wantErrContains := "type must be specified" |};
    {| name := "type must be specified (unknown type)";
       contract := {| vfcAddress := "0x405b96e2538ac85ee862e332fa634b158d013ae1";
                      Active := true;
                      Type_ := VirtualFrontierContractTypeUnknown;
                      Metadata := validVFBankContractMetadataBz |};
       wantErr := true; wantErrContains := "type must be specified" |};
    {| name := "invalid VF bank contract metadata";
       contract := bankContract "0x405b96e2538ac85ee862e332fa634b158d013ae1"
                     invalidVFBankContractMetadataBz;
       wantErr := true; wantErrContains := "metadata does not pass validation" |} ].

(** The body of [t.Run]: [require.NoError], or [require.Error] and
    [require.ErrorContains]. *)
Definition ValidateBasic_passes
    (validate : BinaryCodec -> VirtualFrontierContract -> error)
    (tt : ValidateBasicCase) : bool :=
  match validate cdc (contract tt) with
  | None => negb (wantErr tt)
  | Some msg => wantErr tt && Contains msg (wantErrContains tt)
  end.

End Table.

Record ContractAddressCase := {
  caName : string;
  address : string;
  want : common.Address;
}.

(** The table of [TestVirtualFrontierContract_ContractAddress]. *)
Definition ContractAddress_tests : list ContractAddressCase :=
  [ {| caName := "normal";
       address := "0x405b96e2538ac85ee862e332fa634b158d013ae1";
       want := common.HexToAddress "0x405b96e2538ac85ee862e332fa634b158d013ae1" |};
    {| caName := "normal, without 0x prefix";
       address := "405b96e2538ac85ee862e332fa634b158d013ae1";
       want := common.HexToAddress "0x405b96e2538ac85ee862e332fa634b158d013ae1" |};
    {| caName := "normal, empty address";
       address := "";
       want := common.zeroAddress |} ].

(** [require.Equal(t, tt.want, m.ContractAddress())] *)
Definition ContractAddress_passes (tt : ContractAddressCase) : bool :=
  bytes_Equal (want tt)
    (VirtualFrontierContract_.ContractAddress
       {| vfcAddress := address tt; Active := false; Type_ := 0; Metadata := [] |}).

End Tests.

(** ** A ledger to run the import on

    The codec, the hash and the keepers are outside these sources.  To run
    [InitGenesis] and the test tables on concrete inputs, this module
    supplies small ones: a codec with a self-delimiting layout, and an
    in-memory ledger whose keeper operations are modelled from the spec's
    sections 3 and 4. *)

Module Ledger.

(** A string as [0x01 c] per byte [c], closed by [0x00]. *)
Fixpoint putString (s : string) : bytes :=
  match s with
  | EmptyString => [x00]
  | String c s' => x01 :: byte_of_ascii c :: putString s'
  end.

Fixpoint getString (b : bytes) : option (string * bytes) :=
  match b with
  | x00 :: rest => Some (EmptyString, rest)
  | x01 :: c :: rest =>
      match getString rest with
      | Some (s, rest') => Some (String (ascii_of_byte c) s, rest')
      | None => None
      end
  | _ => None
  end.

Definition putUint (n : N) : bytes :=
  putString (DecimalString.NilEmpty.string_of_uint (N.to_uint n)).

Definition getUint (b : bytes) : option (N * bytes) :=
  match getString b with
  | Some (s, rest) =>
      match DecimalString.NilEmpty.uint_of_string s with
      | Some d => Some (N.of_uint d, rest)
      | None => None
      end
  | None => None
  end.

Definition marshal (m : VFBankContractMetadata) : bytes :=
  putString (MinDenom m) ++ putUint (Exponent m) ++ putString (DisplayName m).

Definition unmarshal (b : bytes) : option VFBankContractMetadata :=
  match getString b with
  | Some (minDenom, b1) =>
      match getUint b1 with
      | Some (exponent, b2) =>
          match getString b2 with
          | Some (displayName, []) =>
              Some {| MinDenom := minDenom; Exponent := exponent;
                      DisplayName := displayName |}
          | _ => None
          end
      | None => None
      end
  | None => None
  end.

Definition cdc : BinaryCodec :=
  {| MustMarshal := marshal; Unmarshal := unmarshal |}.

(** Everything behind [ctx] and the keepers. *)
Record World := {
  dymensionChain : bool;
  devChain : bool;
  chainIDSet : bool;
  storedParams : option Params;
  moduleAccounts : list (string * N);
  accounts : list (bytes * AccountI);
  codeStore : list (bytes * bytes);
  stateStore : list (common.Address * common.Hash * bytes);
  denomMetaData : list BankMetadata;
  contracts : list VirtualFrontierContract;
}.

Definition withContracts (cs : list VirtualFrontierContract) (w : World) : World :=
  {| dymensionChain := dymensionChain w; devChain := devChain w;
     chainIDSet := chainIDSet w; storedParams := storedParams w;
     moduleAccounts := moduleAccounts w; accounts := accounts w;
     codeStore := codeStore w; stateStore := stateStore w;
     denomMetaData := denomMetaData w; contracts := cs |}.

Definition withAccounts (accs : list (bytes * AccountI)) (w : World) : World :=
{| dymensionChain := dymensionChain w; devChain := devChain w;
   chainIDSet := chainIDSet w; storedParams := storedParams w;
   moduleAccounts := moduleAccounts w; accounts := accs;
   codeStore := codeStore w; stateStore := stateStore w;
   denomMetaData := denomMetaData w; contracts := contracts w |}.

Definition withModuleAccounts (ms : list (string * N)) (w : World) : World :=
  {| dymensionChain := dymensionChain w; devChain := devChain w;
     chainIDSet := chainIDSet w; storedParams := storedParams w;
     moduleAccounts := ms; accounts := accounts w;
     codeStore := codeStore w; stateStore := stateStore w;
     denomMetaData := denomMetaData w; contracts := contracts w |}.

Definition evm : string := "evm".
Definition deployer : string := "vfc-deployer".

Fixpoint lookup {A} (eqb : A -> A -> bool) {B} (k : A) (l : list (A * B)) : option B :=
  match l with
  | [] => None
  | (k', v) :: rest => if eqb k k' then Some v else lookup eqb k rest
  end.

Fixpoint setSequence (name : string) (n : N) (l : list (string * N)) : list (string * N) :=
  match l with
  | [] => [(name, n)]
  | (k, v) :: rest =>
      if (k =? name)%string then (k, n) :: rest
      else (k, v) :: setSequence name n rest
  end.

(** A module's address: its name, as twenty bytes. *)
Definition moduleAddress (name : string) : bytes :=
  common.BytesToAddress (list_byte_of_string name).

Definition getModuleAccount (name : string) (w : World) : ModuleAccountI * World :=
  match lookup String.eqb name (moduleAccounts w) with
  | Some n => ({| GetSequence := n |}, w)
  | None =>
      ({| GetSequence := 0 |},
       withModuleAccounts (setSequence name 0 (moduleAccounts w)) w)
  end.

(** A 32-byte stand-in for Keccak-256. *)
Definition hash (b : bytes) : common.Hash := common.BytesToHash (x01 :: b).

Definition isBankContractOf (denom : string) (c : VirtualFrontierContract) : bool :=
  Active c
  && (Type_ c =? VirtualFrontierContractTypeBankContract)%N
  && match unmarshal (Metadata c) with
     | Some meta => (MinDenom meta =? denom)%string
     | None => false
     end.

(** Modelled from the spec: the keeper's lookup of a bank contract by
    denomination (section 4.3, [getBankContractByDenomination]) scans the
    active bank contracts. *)
Definition getByDenom (denom : string) (w : World) : option common.Address :=
  match find (isBankContractOf denom) (contracts w) with
  | Some c => Some (VirtualFrontierContract_.ContractAddress c)
  | None => None
  end.

Definition hasAddress (a : string) (w : World) : bool :=
  existsb (fun c => (vfcAddress c =? a)%string) (contracts w).

(** Modelled from the spec: the registry's [create] (section 4.3)
    validates, rejects a duplicate address, appends. *)
Definition create (c : VirtualFrontierContract) (w : World) : error * World :=
  match VirtualFrontierContract_.ValidateBasic cdc c with
  | Some e => (Some e, w)
  | None =>
      if hasAddress (vfcAddress c) w then (Some "duplicate address", w)
      else (None, withContracts (contracts w ++ [c]) w)
  end.

(** Modelled from the spec: the keeper's bulk import (section 4.4) puts
    each record through [create], in order; the sequence counter is not
    touched. *)
Fixpoint genesisImport (cs : list VirtualFrontierContract) (w : World) : error * World :=
  match cs with
  | [] => (None, w)
  | c :: rest =>
      match create c w with
      | (Some e, w') => (Some e, w')
      | (None, w') => genesisImport rest w'
      end
  end.

(** The address of the [n]-th deployment: a one and the counter, as
    bytes; injective in [n] and never the nil address. *)
Fixpoint counterBytes (digits : nat) (n : N) : bytes :=
  match digits with
  | O => []
  | S d =>
      counterBytes d (n / 256)
        ++ [match Byte.of_N (n mod 256) with Some b => b | None => x00 end]
  end.

Definition deployAddress (n : N) : common.Address :=
  common.BytesToAddress (x01 :: counterBytes 8 n).

(** Modelled from the spec: the keeper's deployment (section 4.4,
    [deployNext]) takes the address from the deployer's sequence, puts the
    record through [create] and raises the sequence by one; on failure
    nothing is written. *)
Definition deployNew (c : VirtualFrontierContract) (meta : VFBankContractMetadata)
    (_ : BankMetadata) (w : World) : (string + common.Address) * World :=
  let (acc, w1) := getModuleAccount deployer w in
  let a := deployAddress (GetSequence acc) in
  let record :=
    {| vfcAddress := VirtualFrontierContract_.format a;
       Active := Active c;
       Type_ := VirtualFrontierContractTypeBankContract;
       Metadata := marshal meta |} in
  match create record w1 with
  | (Some e, _) => (inl e, w)
  | (None, w2) =>
      (inr a,
       withModuleAccounts
         (setSequence deployer (uint64 (GetSequence acc + 1)) (moduleAccounts w2)) w2)
  end.

Definition setParams (p : Params) (w : World) : error * World :=
  (None,
   {| dymensionChain := dymensionChain w; devChain := devChain w;
      chainIDSet := chainIDSet w; storedParams := Some p;
      moduleAccounts := moduleAccounts w; accounts := accounts w;
      codeStore := codeStore w; stateStore := stateStore w;
      denomMetaData := denomMetaData w; contracts := contracts w |}).

Definition withChainID (w : World) : World :=
  {| dymensionChain := dymensionChain w; devChain := devChain w;
     chainIDSet := true; storedParams := storedParams w;
     moduleAccounts := moduleAccounts w; accounts := accounts w;
     codeStore := codeStore w; stateStore := stateStore w;
     denomMetaData := denomMetaData w; contracts := contracts w |}.

Definition setCode (h code : bytes) (w : World) : World :=
  {| dymensionChain := dymensionChain w; devChain := devChain w;
     chainIDSet := chainIDSet w; storedParams := storedParams w;
     moduleAccounts := moduleAccounts w; accounts := accounts w;
     codeStore := (h, code) :: codeStore w; stateStore := stateStore w;
     denomMetaData := denomMetaData w; contracts := contracts w |}.

Definition setState (a : common.Address) (k : common.Hash) (v : bytes) (w : World) : World :=
  {| dymensionChain := dymensionChain w; devChain := devChain w;
     chainIDSet := chainIDSet w; storedParams := storedParams w;
     moduleAccounts := moduleAccounts w; accounts := accounts w;
     codeStore := codeStore w; stateStore := (a, k, v) :: stateStore w;
     denomMetaData := denomMetaData w; contracts := contracts w |}.

Definition setDenomMetaData (m : BankMetadata) (w : World) : World :=
  {| dymensionChain := dymensionChain w; devChain := devChain w;
     chainIDSet := chainIDSet w; storedParams := storedParams w;
     moduleAccounts := moduleAccounts w; accounts := accounts w;
     codeStore := codeStore w; stateStore := stateStore w;
     denomMetaData := m :: denomMetaData w; contracts := contracts w |}.

Definition getDenomMetaData (denom : string) (w : World) : option BankMetadata :=
  find (fun m => (Base m =? denom)%string) (denomMetaData w).

#[export] Instance keepers : Collaborators World BankMetadata :=
  {| IsOneOfDymensionChains := dymensionChain;
     IsEthermintDevChain := devChain;
     Keccak256Hash := hash;
     ModuleName := evm;
     ModuleVirtualFrontierContractDeployerName := deployer;
     CollectMetadataForVirtualFrontierBankContract :=
       fun m => (m, negb (Base m =? "")%string && negb (Display m =? "")%string);
     WithChainID := withChainID;
     SetParams := setParams;
     SetCode := setCode;
     SetState := setState;
     GetVirtualFrontierBankContractAddressByDenom := getByDenom;
     DeployNewVirtualFrontierBankContract := deployNew;
     GenesisImportVirtualFrontierContracts := genesisImport;
     StoredVirtualFrontierContracts := contracts;
     GetModuleAddress :=
       fun name w =>
         match lookup String.eqb name (moduleAccounts w) with
         | Some _ => Some (moduleAddress name)
         | None => None
         end;
     GetAccount := fun a w => lookup bytes_Equal a (accounts w);
     GetModuleAccount := getModuleAccount;
     GetDenomMetaData := getDenomMetaData;
     SetDenomMetaData := setDenomMetaData |}.

(** A new chain: both module accounts at sequence [seq] for the
    deployer, nothing stored. *)
Definition fresh (dymension dev : bool) (seq : N) : World :=
  {| dymensionChain := dymension; devChain := dev; chainIDSet := false;
     storedParams := None;
     moduleAccounts := [(evm, 0%N); (deployer, seq)];
     accounts := []; codeStore := []; stateStore := [];
     denomMetaData := []; contracts := [] |}.

End Ledger.

(** ** Inputs to run the import on *)

Definition world_of {W A} (o : Outcome W A) : W :=
  match o with
  | Returns _ w => w
  | Panics _ w => w
  end.

Module Samples.

Definition genesis (denom : string) (enableCreate : bool)
    (accounts : list GenesisAccount) (vfcs : list VirtualFrontierContract) : GenesisState :=
  {| Accounts := accounts;
     params := {| EvmDenom := denom; EnableCreate := enableCreate |};
     VirtualFrontierContracts := vfcs |}.

Definition wei : bytes := MustMarshal Ledger.cdc Tests.validVFBankContractMetadata.

(** Two well-formed records. *)
Definition twoContracts : list VirtualFrontierContract :=
  [ Tests.bankContract "0x405b96e2538ac85ee862e332fa634b158d013ae1" wei;
    Tests.bankContract "0x405b96e2538ac85ee862e332fa634b158d013ae2" wei ].

Definition holder : string := "0x405b96e2538ac85ee862e332fa634b158d013ae1".

(** A chain with one Eth account, whose recorded code hash is that of the
    code [6000]. *)
Definition withHolder (w : Ledger.World) : Ledger.World :=
  Ledger.withAccounts
    [(common.HexToAddress holder,
      {| accSequence := 1; ethCodeHash := Some (Ledger.hash [x60; x00]) |})] w.

Definition entry (code : string) : GenesisAccount :=
  {| Address := holder; Code := code;
     Storage := [ {| Key := "0x01"; Value := "0x2a" |} ] |}.

End Samples.

(** ** [ExportGenesis] ([x/evm/genesis.go], lines 173-208) *)

(** [common.Bytes2Hex] *)
Definition Bytes2Hex (d : bytes) : string := hex.EncodeToString d.

(** The two hex digits of each byte of a hash, in order: digit [j] is
    [hash[j/2] >> 4] for even [j] and [hash[j/2] & 0xf] for odd [j]. *)
Definition hashNibbles (hash : bytes) : list N :=
  flat_map (fun b => [N.shiftr (Byte.to_N b) 4; N.land (Byte.to_N b) 15]) hash.

(** The loop of go-ethereum's [checksumHex]: a digit above ['9'] whose
    hash digit is above 7 is moved to uppercase ([buf[i] -= 32]).
    Keccak-256 returns 32 bytes, so the hash digit is always there; a
    missing one reads as 0. *)
Fixpoint checksumCase (s : string) (nibbles : list N) : string :=
  match s with
  | EmptyString => EmptyString
  | String c s' =>
      String
        (if (N_of_ascii "9" <? N_of_ascii c)%N && (7 <? hd 0%N nibbles)%N
         then ascii_of_N (N_of_ascii c - 32)
         else c)
        (checksumCase s' (tl nibbles))
  end.

(** The account interface as [ExportGenesis] uses it: an account that
    implements [ethermint.EthAccountI] gives its [EthAddress()] and its
    [GetCodeHash()]. *)
Record EthAccountI := {
  EthAddress : common.Address;
  GetCodeHash : common.Hash;
}.

(** An [authtypes.AccountI] handed to the callback of [IterateAccounts]:
    the type assertion [account.(ethermint.EthAccountI)] succeeds or
    not. *)
Inductive StoredAccount :=
| BaseAccount
| EthAccount (ethAccount : EthAccountI).

(** What [ExportGenesis] reads through [ctx], [k] and [ak], beside the
    stored contracts. *)
Class ExportCollaborators (World : Type) := {
  (* the accounts [ak.IterateAccounts] visits, in its order *)
  StoredAccounts : World -> list StoredAccount;
  (* keeper.Keeper *)
  GetCode : common.Hash -> World -> bytes;
  GetAccountStorage : common.Address -> World -> list State;
  GetParams : World -> Params;
}.

Section ExportDefinitions.

Context {World DenomMeta : Type} `{K : Collaborators World DenomMeta}
  `{E : ExportCollaborators World}.

(** [common.Address.String()], which is [Hex()]: [0x], then the lowercase
    hex of the address with the case of its letters set by the Keccak-256
    hash of that lowercase hex text. *)
Definition Address_String (a : common.Address) : string :=
  let lower := hex.EncodeToString a in
  let hash := Keccak256Hash (list_byte_of_string lower) in
  "0x" ++ checksumCase lower (hashNibbles hash).

(** The SDK's [IterateAccounts]: it hands the accounts to the callback, in
    order, until the callback returns [true]. *)
Fixpoint iterateAccounts {A} (accounts : list StoredAccount)
    (cb : StoredAccount -> A -> A * bool) (acc : A) : A :=
  match accounts with
  | [] => acc
  | a :: rest =>
      let (acc', stop) := cb a acc in
      if stop then acc' else iterateAccounts rest cb acc'
  end.

Definition IterateAccounts {A} (ctx : World)
    (cb : StoredAccount -> A -> A * bool) (acc : A) : A :=
  iterateAccounts (StoredAccounts ctx) cb acc.

(** Lines 183-191: the genesis account of one Eth account. *)
Definition exportAccount (ctx : World) (ethAccount : EthAccountI) : GenesisAccount :=
  let addr := EthAddress ethAccount in
  let storage := GetAccountStorage addr ctx in
  {| Address := Address_String addr;
     Code := Bytes2Hex (GetCode (GetCodeHash ethAccount) ctx);
     Storage := storage |}.

(** [func ExportGenesis(ctx, k, ak) *types.GenesisState] *)
Definition ExportGenesis (ctx : World) : GenesisState :=
  let ethGenAccounts :=
    IterateAccounts ctx
      (fun account ethGenAccounts =>
         match account with
         | BaseAccount => (ethGenAccounts, false)   (* ignore non EthAccounts *)
         | EthAccount ethAccount =>
             (ethGenAccounts ++ [exportAccount ctx ethAccount], false)
         end) [] in
  let vfContracts :=
    IterateVirtualFrontierContracts ctx
      (fun contract vfContracts => (vfContracts ++ [contract], false)) [] in
  {| Accounts := ethGenAccounts;
     params := GetParams ctx;
     VirtualFrontierContracts := vfContracts |}.

(** The Eth accounts among stored accounts, in order. *)
Fixpoint ethAccountsOf (accounts : list StoredAccount) : list EthAccountI :=
  match accounts with
  | [] => []
  | BaseAccount :: rest => ethAccountsOf rest
  | EthAccount e :: rest => e :: ethAccountsOf rest
  end.

End ExportDefinitions.

(** The ledger, as [ExportGenesis] reads it. *)
Module LedgerExport.

Definition storedAccount (entry : bytes * AccountI) : StoredAccount :=
  match ethCodeHash (snd entry) with
  | Some h => EthAccount {| EthAddress := fst entry; GetCodeHash := h |}
  | None => BaseAccount
  end.

Definition getCode (h : common.Hash) (w : Ledger.World) : bytes :=
  match Ledger.lookup bytes_Equal h (Ledger.codeStore w) with
  | Some code => code
  | None => []
  end.

(** The slots of an address, oldest write first, as [0x] hex text. *)
Definition getAccountStorage (a : common.Address) (w : Ledger.World) : list State :=
  flat_map
    (fun slot : common.Address * common.Hash * bytes =>
       let '(a', k, v) := slot in
       if bytes_Equal a a'
       then [ {| Key := "0x" ++ hex.EncodeToString k;
                 Value := "0x" ++ hex.EncodeToString v |} ]
       else [])
    (rev (Ledger.stateStore w)).

Definition getParams (w : Ledger.World) : Params :=
  match Ledger.storedParams w with
  | Some p => p
  | None => {| EvmDenom := ""; EnableCreate := false |}
  end.

#[export] Instance keepers : ExportCollaborators Ledger.World :=
  {| StoredAccounts := fun w => map storedAccount (Ledger.accounts w);
     GetCode := getCode;
     GetAccountStorage := getAccountStorage;
     GetParams := getParams |}.

End LedgerExport.

(** Inputs to run the export on. *)
Module ExportSamples.

(** A chain that holds the Eth account of [Samples.holder], with its code
    [6000] stored under its hash, and one account of another kind. *)
Definition chain : Ledger.World :=
  Ledger.setCode (Ledger.hash [x60; x00]) [x60; x00]
    (Ledger.withAccounts
       [ (common.HexToAddress Samples.holder,
          {| accSequence := 1; ethCodeHash := Some (Ledger.hash [x60; x00]) |});
         (Ledger.moduleAddress Ledger.evm,
          {| accSequence := 0; ethCodeHash := None |}) ]
       (Ledger.fresh false false 0)).

Definition holderAccount : EthAccountI :=
  {| EthAddress := common.HexToAddress Samples.holder;
     GetCodeHash := Ledger.hash [x60; x00] |}.

End ExportSamples.

(** * Properties *)

(** ** Bytes and hex *)

Lemma bytes_Equal_eq (a b : bytes) : bytes_Equal a b = true <-> a = b.
Proof.
  revert b; induction a as [|x a IH]; intros [|y b]; simpl; split;
    try congruence; try discriminate.
  - rewrite andb_true_iff, IH. intros [Hxy ->].
    apply Byte.byte_dec_bl in Hxy. now subst.
  - intros [= -> ->]. rewrite andb_true_iff, IH. split; [|reflexivity].
    now apply Byte.byte_dec_lb.
Qed.

Lemma bytes_Equal_neq (a b : bytes) : bytes_Equal a b = false <-> a <> b.
Proof.
  rewrite <- bytes_Equal_eq. destruct (bytes_Equal a b); split; congruence.
Qed.

(** Decoding undoes encoding, one byte at a time. *)
Lemma DecodeString_encoded_byte (v : byte) (rest : string) :
  hex.DecodeString
    (String (hex.hexdigit (N.shiftr (Byte.to_N v) 4))
       (String (hex.hexdigit (N.land (Byte.to_N v) 15)) rest))
  = (v :: fst (hex.DecodeString rest), snd (hex.DecodeString rest)).
Proof.
  destruct v; cbn [hex.DecodeString];
    (destruct (hex.DecodeString rest); reflexivity).
Qed.

Lemma DecodeString_EncodeToString (b : bytes) :
  hex.DecodeString (hex.EncodeToString b) = (b, None).
Proof.
  induction b as [|v b IH]; [reflexivity|].
  cbn [hex.EncodeToString]. rewrite DecodeString_encoded_byte, IH. reflexivity.
Qed.

Lemma Hex2Bytes_EncodeToString (b : bytes) :
  common.Hex2Bytes (hex.EncodeToString b) = b.
Proof. unfold common.Hex2Bytes. now rewrite DecodeString_EncodeToString. Qed.

(** [hex.EncodeToString] writes lowercase already. *)
Lemma ToLower_EncodeToString (b : bytes) :
  ToLower (hex.EncodeToString b) = hex.EncodeToString b.
Proof.
  induction b as [|v b IH]; [reflexivity|].
  cbn [hex.EncodeToString ToLower]. rewrite IH. destruct v; reflexivity.
Qed.

Lemma EncodeToString_inj (a b : bytes) :
  hex.EncodeToString a = hex.EncodeToString b -> a = b.
Proof.
  intros H. rewrite <- (Hex2Bytes_EncodeToString a), H.
  apply Hex2Bytes_EncodeToString.
Qed.

(** The text [GetMethodFromSignature] switches on names the first four
    bytes. *)
Lemma signature_text (input sel : bytes) :
  ToLower (hex.EncodeToString (firstn 4 input)) = hex.EncodeToString sel ->
  firstn 4 input = sel.
Proof. rewrite ToLower_EncodeToString. apply EncodeToString_inj. Qed.

Lemma firstn_4_length (input sel : bytes) :
  firstn 4 input = sel -> List.length sel = 4%nat ->
  (List.length input <? 4)%nat = false.
Proof.
  intros <- H. apply Nat.ltb_ge.
  rewrite length_firstn in H. lia.
Qed.

(** ** The method dispatcher *)

Import VFBankContractMetadata_.

(** C3: a payload of fewer than four bytes is not found; a payload whose
    first four bytes are one of the six selectors yields that selector's
    method, found; any other payload of four bytes or more is not found,
    with the Unknown method. *)
Theorem GetMethodFromSignature_dispatch (m : VFBankContractMetadata) (input : bytes) :
  ((List.length input < 4)%nat ->
     GetMethodFromSignature m input = (VFBCmUnknown, false))
  /\ (firstn 4 input = [x06; xfd; xde; x03] ->
        GetMethodFromSignature m input = (VFBCmName, true))
  /\ (firstn 4 input = [x95; xd8; x9b; x41] ->
        GetMethodFromSignature m input = (VFBCmSymbol, true))
  /\ (firstn 4 input = [x31; x3c; xe5; x67] ->
        GetMethodFromSignature m input = (VFBCmDecimals, true))
  /\ (firstn 4 input = [x18; x16; x0d; xdd] ->
        GetMethodFromSignature m input = (VFBCmTotalSupply, true))
  /\ (firstn 4 input = [x70; xa0; x82; x31] ->
        GetMethodFromSignature m input = (VFBCmBalanceOf, true))
  /\ (firstn 4 input = [xa9; x05; x9c; xbb] ->
        GetMethodFromSignature m input = (VFBCmTransfer, true))
  /\ ((4 <= List.length input)%nat ->
      firstn 4 input <> [x06; xfd; xde; x03] ->
      firstn 4 input <> [x95; xd8; x9b; x41] ->
      firstn 4 input <> [x31; x3c; xe5; x67] ->
      firstn 4 input <> [x18; x16; x0d; xdd] ->
      firstn 4 input <> [x70; xa0; x82; x31] ->
      firstn 4 input <> [xa9; x05; x9c; xbb] ->
      GetMethodFromSignature m input = (VFBCmUnknown, false)).
Proof.
  unfold GetMethodFromSignature.
  split; [intros H; apply Nat.ltb_lt in H; now rewrite H|].
  repeat match goal with
  | |- (firstn 4 input = _ -> _) /\ _ =>
      split; [intros H; rewrite (firstn_4_length _ _ H eq_refl), H; reflexivity|]
  end.
  intros Hlen H1 H2 H3 H4 H5 H6.
  apply Nat.ltb_ge in Hlen. rewrite Hlen. cbv zeta.
  repeat match goal with
  | H : firstn 4 input <> _ |- context [String.eqb ?s ?t] =>
      destruct (String.eqb_spec s t) as [E|_];
        [exfalso; apply H, signature_text; exact E | clear H]
  end.
  reflexivity.
Qed.

(** The dispatcher on a three-byte payload, on [transfer]'s selector
    followed by arguments, and on [deadbeef]. *)
Lemma GetMethodFromSignature_dispatch_witness :
  let m := {| MinDenom := "wei"; Exponent := 18; DisplayName := "ETH" |} in
  GetMethodFromSignature m [xa9; x05; x9c] = (VFBCmUnknown, false)
  /\ GetMethodFromSignature m [xa9; x05; x9c; xbb; x00; x01] = (VFBCmTransfer, true)
  /\ GetMethodFromSignature m [xde; xad; xbe; xef] = (VFBCmUnknown, false).
Proof.
  intros m. split; [|split].
  - apply (proj1 (GetMethodFromSignature_dispatch m [xa9; x05; x9c])).
    simpl. lia.
  - destruct (GetMethodFromSignature_dispatch m [xa9; x05; x9c; xbb; x00; x01])
      as (_ & _ & _ & _ & _ & _ & H & _).
    apply H. reflexivity.
  - destruct (GetMethodFromSignature_dispatch m [xde; xad; xbe; xef])
      as (_ & _ & _ & _ & _ & _ & _ & H).
    apply H; simpl; try lia; discriminate.
Defined.

(** C9: the method is found exactly when it is not the Unknown one;
    neither (Unknown, found) nor (a known method, not found) is ever
    returned. *)
Theorem GetMethodFromSignature_found_iff (m : VFBankContractMetadata) (input : bytes) :
  (snd (GetMethodFromSignature m input) = true
   <-> fst (GetMethodFromSignature m input) <> VFBCmUnknown)
  /\ GetMethodFromSignature m input <> (VFBCmUnknown, true)
  /\ (forall method, method <> VFBCmUnknown ->
        GetMethodFromSignature m input <> (method, false)).
Proof.
  unfold GetMethodFromSignature.
  repeat match goal with
  | |- context [if ?b then _ else _] => destruct b
  end; cbn [fst snd];
    (split; [split; congruence|split; [|intros method Hmethod]; congruence]).
Qed.

(** ** The bank contract's metadata *)

(** C6: validation fails exactly when the minimum denomination is empty;
    with a non-empty one, any exponent and display name pass. *)
Theorem VFBankContractMetadata_ValidateBasic_iff (m : VFBankContractMetadata) :
  (ValidateBasic m <> None <-> MinDenom m = "")
  /\ forall (denom : string) (exponent : N) (displayName : string),
       denom <> "" ->
       ValidateBasic {| MinDenom := denom; Exponent := exponent;
                        DisplayName := displayName |} = None.
Proof.
  unfold ValidateBasic, len. split.
  - destruct (MinDenom m); simpl; split; congruence.
  - intros [|c denom] exponent displayName H; simpl; congruence.
Qed.

Lemma VFBankContractMetadata_ValidateBasic_witness :
  ValidateBasic {| MinDenom := "wei"; Exponent := 4294967295; DisplayName := "" |} = None.
Proof.
  apply (VFBankContractMetadata_ValidateBasic_iff
           {| MinDenom := ""; Exponent := 0; DisplayName := "" |}).
  discriminate.
Defined.

(** ** The genesis import *)

Section GenesisProperties.

Context {World DenomMeta : Type} `{K : Collaborators World DenomMeta}.

Local Open Scope go_scope.

Lemma bind_Returns {A B} (m : M World A) (k : A -> M World B) w a w' :
  m w = Returns a w' -> bind m k w = k a w'.
Proof. unfold bind. now intros ->. Qed.

Lemma bind_Panics {A B} (m : M World A) (k : A -> M World B) w p w' :
  m w = Panics p w' -> bind m k w = Panics p w'.
Proof. unfold bind. now intros ->. Qed.

Lemma bind_assoc {A B C} (m : M World A) (k : A -> M World B) (h : B -> M World C) w :
  bind (bind m k) h w = bind m (fun a => bind (k a) h) w.
Proof. unfold bind. destruct (m w); reflexivity. Qed.

Lemma bind_returns_inv {A B} (m : M World A) (k : A -> M World B) w b w2 :
  bind m k w = Returns b w2 ->
  exists a w1, m w = Returns a w1 /\ k a w1 = Returns b w2.
Proof.
  unfold bind. destruct (m w) as [a w1|p w1]; [eauto|discriminate].
Qed.

Lemma forEach_app {A} (xs ys : list A) (body : A -> M World unit) w :
  forEach (xs ++ ys) body w = bind (forEach xs body) (fun _ => forEach ys body) w.
Proof.
  revert w; induction xs as [|x xs IH]; intros w; [reflexivity|].
  cbn [app forEach]. unfold bind.
  destruct (body x w); [rewrite IH; reflexivity|reflexivity].
Qed.

Lemma forEach_storage (address : common.Address) (storage : list State) w :
  forEach storage
    (fun st => modify (SetState address (common.HexToHash (Key st))
                         (common.HexToHash (Value st)))) w
  = Returns tt (storageWritten address storage w).
Proof.
  revert w; induction storage as [|st storage IH]; intros w; [reflexivity|].
  cbn [forEach]. unfold bind, modify. apply IH.
Qed.

Lemma importAccount_mismatch (account : GenesisAccount) w acc h :
  GetAccount (common.HexToAddress (Address account)) w = Some acc ->
  ethCodeHash acc = Some h ->
  Code account <> "" ->
  Keccak256Hash (common.Hex2Bytes (Code account)) <> h ->
  importAccount account w
  = Panics (CodeHashMismatch (Address account)
              (Keccak256Hash (common.Hex2Bytes (Code account))) h (Code account)) w.
Proof.
  intros Hacc Heth Hcode Hhash. unfold importAccount, bind, gets.
  rewrite Hacc, Heth.
  assert ((len (Code account) =? 0)%nat = false) as ->.
  { destruct (Code account); [congruence|reflexivity]. }
  assert (bytes_Equal h (Keccak256Hash (common.Hex2Bytes (Code account))) = false) as ->.
  { apply bytes_Equal_neq. congruence. }
  reflexivity.
Qed.

Lemma importAccount_empty_code (account : GenesisAccount) w acc h :
  GetAccount (common.HexToAddress (Address account)) w = Some acc ->
  ethCodeHash acc = Some h ->
  Code account = "" ->
  importAccount account w = Returns tt (accountWritten account w).
Proof.
  intros Hacc Heth Hcode. unfold importAccount, bind, gets.
  rewrite Hacc, Heth, Hcode. cbn [len String.length Nat.eqb negb andb].
  unfold modify, accountWritten. rewrite Hcode. apply forEach_storage.
Qed.

Lemma importAccount_matching (account : GenesisAccount) w acc :
  GetAccount (common.HexToAddress (Address account)) w = Some acc ->
  ethCodeHash acc = Some (Keccak256Hash (common.Hex2Bytes (Code account))) ->
  importAccount account w = Returns tt (accountWritten account w).
Proof.
  intros Hacc Heth. unfold importAccount, bind, gets.
  rewrite Hacc, Heth.
  rewrite (proj2 (bytes_Equal_eq _ _) eq_refl), andb_false_r.
  unfold modify, accountWritten. apply forEach_storage.
Qed.

(** [InitGenesis] is the import followed by the final check. *)
Lemma InitGenesis_split (data : GenesisState) w :
  InitGenesis data w
  = bind (importAll data) (fun _ => ensureDeployerSequence ;; ret []) w.
Proof.
  unfold InitGenesis, importAll, bind.
  destruct (policyPrecheck data w) as [? wa|]; [|reflexivity].
  destruct (setUp data wa) as [? wb|]; [|reflexivity].
  destruct (importAccounts (Accounts data) wb) as [? wc|]; [|reflexivity].
  destruct (devnetBootstrap data wc) as [? wd|]; [|reflexivity].
  destruct (importVirtualFrontierContracts data wd); reflexivity.
Qed.

(** [InitGenesis] from the account loop on. *)
Lemma InitGenesis_from_accounts (data : GenesisState) w pre post w1 :
  Accounts data = pre ++ post ->
  (policyPrecheck data ;; setUp data ;; importAccounts pre) w = Returns tt w1 ->
  InitGenesis data w
  = (importAccounts post ;;
     devnetBootstrap data ;;
     importVirtualFrontierContracts data ;;
     ensureDeployerSequence ;;
     ret []) w1.
Proof.
  intros Hacc Hpre. unfold InitGenesis, importAccounts in *. rewrite Hacc.
  apply bind_returns_inv in Hpre as ([] & wa & Hpolicy & Hpre).
  apply bind_returns_inv in Hpre as ([] & wb & Hsetup & Hpre).
  rewrite (bind_Returns _ _ _ _ _ Hpolicy), (bind_Returns _ _ _ _ _ Hsetup).
  unfold bind at 1. rewrite forEach_app. unfold bind at 1. rewrite Hpre.
  reflexivity.
Qed.

(** The counter of the final check holds the number of records, as a
    [uint64]. *)
Lemma iterate_count (records : list VirtualFrontierContract) (acc : N) :
  (acc < 2 ^ 64)%N ->
  iterate records (fun _ count => (uint64 (count + 1), false)) acc
  = uint64 (acc + N.of_nat (List.length records)).
Proof.
  revert acc; induction records as [|r records IH]; intros acc Hacc.
  - cbn [iterate List.length]. unfold uint64.
    rewrite N.add_0_r, N.mod_small; [reflexivity|assumption].
  - cbn [iterate List.length]. rewrite IH.
    + unfold uint64. rewrite N.Div0.add_mod_idemp_l. f_equal. lia.
    + unfold uint64. apply N.mod_lt. discriminate.
Qed.

Lemma deployedVFCsCount_length w :
  deployedVFCsCount w
  = uint64 (N.of_nat (List.length (StoredVirtualFrontierContracts w))).
Proof.
  unfold deployedVFCsCount, IterateVirtualFrontierContracts.
  rewrite iterate_count; [reflexivity|reflexivity].
Qed.

Lemma ensureDeployerSequence_run w :
  ensureDeployerSequence w
  = if (deployerSequence w =? deployedVFCsCount w)%N
    then Returns tt (snd (GetModuleAccount ModuleVirtualFrontierContractDeployerName w))
    else Panics (InvalidDeployerSequence (deployedVFCsCount w) (deployerSequence w))
           (snd (GetModuleAccount ModuleVirtualFrontierContractDeployerName w)).
Proof.
  unfold ensureDeployerSequence, deployerSequence, bind, gets, call.
  destruct (GetModuleAccount _ w) as [acc w']. cbn [fst snd].
  destruct (GetSequence acc =? deployedVFCsCount w)%N; reflexivity.
Qed.

(** C7: on a Dymension chain, a genesis state with [EnableCreate] set makes
    [InitGenesis] panic at once, on the world exactly as it was handed
    in. *)
Theorem InitGenesis_enable_create_on_dymension (data : GenesisState) (w : World) :
  IsOneOfDymensionChains w = true ->
  EnableCreate (params data) = true ->
  InitGenesis data w = Panics EnableCreateNotAllowed w.
Proof.
  intros Hchain Hcreate.
  unfold InitGenesis, bind at 1, policyPrecheck, bind, gets.
  rewrite Hchain, Hcreate. reflexivity.
Qed.

(** C1: once the import has gone through, [InitGenesis] counts every
    persisted record and panics exactly when the count differs from the
    deployer account's sequence number; with [n] records persisted it
    completes only if the sequence number is [n]. *)
Theorem InitGenesis_deployer_sequence (data : GenesisState) (w w1 : World) :
  importAll data w = Returns tt w1 ->
  deployedVFCsCount w1
  = uint64 (N.of_nat (List.length (StoredVirtualFrontierContracts w1)))
  /\ ((exists p w', InitGenesis data w = Panics p w')
      <-> deployerSequence w1 <> deployedVFCsCount w1)
  /\ (deployerSequence w1 <> deployedVFCsCount w1 ->
      InitGenesis data w
      = Panics (InvalidDeployerSequence (deployedVFCsCount w1) (deployerSequence w1))
          (snd (GetModuleAccount ModuleVirtualFrontierContractDeployerName w1)))
  /\ (deployerSequence w1 = deployedVFCsCount w1 ->
      InitGenesis data w
      = Returns [] (snd (GetModuleAccount ModuleVirtualFrontierContractDeployerName w1)))
  /\ (forall n : nat,
        List.length (StoredVirtualFrontierContracts w1) = n ->
        (N.of_nat n < 2 ^ 64)%N ->
        (exists r w', InitGenesis data w = Returns r w') ->
        deployerSequence w1 = N.of_nat n).
Proof.
  intros Himport.
  assert (Hrun : InitGenesis data w
                 = if (deployerSequence w1 =? deployedVFCsCount w1)%N
                   then Returns [] (snd (GetModuleAccount ModuleVirtualFrontierContractDeployerName w1))
                   else Panics (InvalidDeployerSequence (deployedVFCsCount w1) (deployerSequence w1))
                          (snd (GetModuleAccount ModuleVirtualFrontierContractDeployerName w1))).
  { rewrite InitGenesis_split, (bind_Returns _ _ _ _ _ Himport).
    unfold bind. rewrite ensureDeployerSequence_run.
    destruct (deployerSequence w1 =? deployedVFCsCount w1)%N; reflexivity. }
  rewrite Hrun.
  split; [apply deployedVFCsCount_length|].
  destruct (N.eqb_spec (deployerSequence w1) (deployedVFCsCount w1)) as [E|E].
  - split; [|split; [|split]].
    + split; [intros (p & w' & H); discriminate|congruence].
    + congruence.
    + reflexivity.
    + intros n Hn Hlt _. rewrite E, deployedVFCsCount_length, Hn.
      unfold uint64. now apply N.mod_small.
  - split; [|split; [|split]].
    + split; [intros _; exact E|eauto].
    + reflexivity.
    + congruence.
    + intros n _ _ (r & w' & H). discriminate.
Qed.

(** C2: when the import reaches an account entry whose account is an Eth
    account, non-empty code whose Keccak-256 hash differs from the
    account's recorded code hash makes [InitGenesis] panic; with an empty
    code field the entry is imported, whatever hash is recorded. *)
Theorem InitGenesis_code_hash_check
    (data : GenesisState) (w w1 : World) (pre post : list GenesisAccount)
    (account : GenesisAccount) (acc : AccountI) (h : common.Hash) :
  Accounts data = pre ++ account :: post ->
  (policyPrecheck data ;; setUp data ;; importAccounts pre) w = Returns tt w1 ->
  GetAccount (common.HexToAddress (Address account)) w1 = Some acc ->
  ethCodeHash acc = Some h ->
  (Code account <> "" ->
   Keccak256Hash (common.Hex2Bytes (Code account)) <> h ->
   InitGenesis data w
   = Panics (CodeHashMismatch (Address account)
               (Keccak256Hash (common.Hex2Bytes (Code account))) h (Code account)) w1)
  /\ (Code account = "" ->
      importAccount account w1 = Returns tt (accountWritten account w1)
      /\ (policyPrecheck data ;; setUp data ;; importAccounts (pre ++ [account])) w
         = Returns tt (accountWritten account w1)).
Proof.
  intros Haccounts Hpre Hacc Heth. split.
  - intros Hcode Hhash.
    rewrite (InitGenesis_from_accounts data w pre (account :: post) w1 Haccounts Hpre).
    apply bind_Panics. unfold importAccounts. cbn [forEach].
    apply bind_Panics. now apply (importAccount_mismatch account w1 acc h).
  - intros Hcode.
    pose proof (importAccount_empty_code account w1 acc h Hacc Heth Hcode) as Hrun.
    split; [exact Hrun|].
    apply bind_returns_inv in Hpre as ([] & wa & Hpolicy & Hpre).
    apply bind_returns_inv in Hpre as ([] & wb & Hsetup & Hpre).
    rewrite (bind_Returns _ _ _ _ _ Hpolicy), (bind_Returns _ _ _ _ _ Hsetup).
    unfold importAccounts in *. rewrite forEach_app.
    rewrite (bind_Returns _ _ _ _ _ Hpre). cbn [forEach].
    rewrite (bind_Returns _ _ _ _ _ Hrun). reflexivity.
Qed.

Lemma devnetBootstrap_run (data : GenesisState) (w : World) :
  devnetBootstrap data w
  = if IsEthermintDevChain w then
      match GetVirtualFrontierBankContractAddressByDenom (EvmDenom (params data)) w with
      | Some _ => Returns tt w
      | None => deployNativeBankContract (EvmDenom (params data)) w
      end
    else Returns tt w.
Proof.
  unfold devnetBootstrap, bind, gets.
  destruct (IsEthermintDevChain w); [|reflexivity].
  destruct (GetVirtualFrontierBankContractAddressByDenom _ w); reflexivity.
Qed.

(** A run of the deploy branch that returns has deployed an active
    contract for the denomination. *)
Lemma deployNativeBankContract_returns (denom : string) (w w' : World) :
  deployNativeBankContract denom w = Returns tt w' ->
  exists c m dm w0 a,
    DeployNewVirtualFrontierBankContract c m dm w0 = (inr a, w')
    /\ Active c = true /\ MinDenom m = denom.
Proof.
  unfold deployNativeBankContract, bind, gets, call, ret, panic, modify.
  destruct (GetDenomMetaData denom w) as [meta|].
  - destruct (CollectMetadataForVirtualFrontierBankContract meta) as [dm valid].
    destruct valid; cbn [negb]; [|discriminate].
    destruct (DeployNewVirtualFrontierBankContract _ _ dm w) as [[err|a] w2] eqn:E;
      [discriminate|].
    intros [= <-]. do 5 eexists. split; [exact E|split; reflexivity].
  - destruct (slice_from 1 denom) as [tail|]; [|discriminate].
    destruct (CollectMetadataForVirtualFrontierBankContract _) as [dm valid].
    destruct valid; cbn [negb]; [|discriminate].
    destruct (DeployNewVirtualFrontierBankContract _ _ dm _) as [[err|a] w2] eqn:E;
      [discriminate|].
    intros [= <-]. do 5 eexists. split; [exact E|split; reflexivity].
Qed.

(** C8: the development-network step leaves the world as it is, and
    raises nothing, when a bank contract is already registered for the fee
    denomination; it deploys only when the lookup reports not-found; and,
    a deployed contract being found by its denomination, running the step
    again after it has gone through changes nothing. *)
Theorem devnetBootstrap_idempotent (data : GenesisState) (w : World) :
  (forall a,
      GetVirtualFrontierBankContractAddressByDenom (EvmDenom (params data)) w = Some a ->
      devnetBootstrap data w = Returns tt w)
  /\ (devnetBootstrap data w <> Returns tt w ->
      IsEthermintDevChain w = true
      /\ GetVirtualFrontierBankContractAddressByDenom (EvmDenom (params data)) w = None
      /\ devnetBootstrap data w = deployNativeBankContract (EvmDenom (params data)) w)
  /\ ((forall c m dm w0 a w',
          DeployNewVirtualFrontierBankContract c m dm w0 = (inr a, w') ->
          Active c = true ->
          GetVirtualFrontierBankContractAddressByDenom (MinDenom m) w' <> None) ->
      forall w',
        devnetBootstrap data w = Returns tt w' ->
        devnetBootstrap data w' = Returns tt w').
Proof.
  split; [|split].
  - intros a Hfound. rewrite devnetBootstrap_run, Hfound.
    now destruct (IsEthermintDevChain w).
  - rewrite devnetBootstrap_run.
    destruct (IsEthermintDevChain w); [|now intros []].
    destruct (GetVirtualFrontierBankContractAddressByDenom _ w); [now intros []|].
    auto.
  - intros Hlaw w'. rewrite (devnetBootstrap_run data w).
    destruct (IsEthermintDevChain w) eqn:Hdev.
    + destruct (GetVirtualFrontierBankContractAddressByDenom _ w) eqn:Hfound.
      * intros [= <-]. rewrite devnetBootstrap_run, Hdev, Hfound. reflexivity.
      * intros Hrun.
        apply deployNativeBankContract_returns in Hrun
          as (c & m & dm & w0 & a & Hdeploy & Hactive & Hdenom).
        specialize (Hlaw c m dm w0 a w' Hdeploy Hactive). rewrite Hdenom in Hlaw.
        rewrite devnetBootstrap_run.
        destruct (IsEthermintDevChain w'); [|reflexivity].
        destruct (GetVirtualFrontierBankContractAddressByDenom _ w');
          [reflexivity|contradiction].
    + intros [= <-]. rewrite devnetBootstrap_run, Hdev. reflexivity.
Qed.

Lemma slice_from_1_None (denom : string) :
  slice_from 1 denom = None <-> denom = "".
Proof. destruct denom; simpl; split; congruence. Qed.

(** C10: the deploy branch of the development-network step slices the
    first byte off the fee denomination, which is defined only for a
    non-empty one: with an empty [EvmDenom] on a development chain that has
    no bank contract and no denomination metadata yet, the step, and with
    it [InitGenesis], panics with Go's slice-bounds run-time error. *)
Theorem InitGenesis_empty_denom_on_devnet (data : GenesisState) (w w1 : World) :
  (policyPrecheck data ;; setUp data ;; importAccounts (Accounts data)) w = Returns tt w1 ->
  IsEthermintDevChain w1 = true ->
  EvmDenom (params data) = "" ->
  GetVirtualFrontierBankContractAddressByDenom "" w1 = None ->
  GetDenomMetaData "" w1 = None ->
  devnetBootstrap data w1 = Panics (SliceBoundsOutOfRange 1 0) w1
  /\ InitGenesis data w = Panics (SliceBoundsOutOfRange 1 0) w1
  /\ forall denom, slice_from 1 denom = None <-> denom = "".
Proof.
  intros Hpre Hdev Hdenom Hcontract Hmeta.
  assert (Hstep : devnetBootstrap data w1 = Panics (SliceBoundsOutOfRange 1 0) w1).
  { rewrite devnetBootstrap_run, Hdev, Hdenom, Hcontract.
    unfold deployNativeBankContract, bind at 1, bind at 1, gets.
    rewrite Hmeta. reflexivity. }
  split; [exact Hstep|split; [|apply slice_from_1_None]].
  rewrite (InitGenesis_from_accounts data w (Accounts data) [] w1);
    [|now rewrite app_nil_r|exact Hpre].
  unfold importAccounts. cbn [forEach]. unfold bind at 1, ret.
  now apply bind_Panics.
Qed.

End GenesisProperties.

(** ** The ledger *)

Lemma getString_putString (s : string) (rest : bytes) :
  Ledger.getString (Ledger.putString s ++ rest) = Some (s, rest).
Proof.
  induction s as [|c s IH]; [reflexivity|].
  cbn [Ledger.putString app Ledger.getString].
  now rewrite IH, ascii_of_byte_of_ascii.
Qed.

Lemma getUint_putUint (n : N) (rest : bytes) :
  Ledger.getUint (Ledger.putUint n ++ rest) = Some (n, rest).
Proof.
  unfold Ledger.getUint, Ledger.putUint.
  now rewrite getString_putString, DecimalString.NilEmpty.usu,
    DecimalN.Unsigned.of_to.
Qed.

(** The ledger's codec reads back what it wrote. *)
Lemma unmarshal_marshal (m : VFBankContractMetadata) :
  Unmarshal Ledger.cdc (MustMarshal Ledger.cdc m) = Some m.
Proof.
  destruct m as [minDenom exponent displayName].
  cbn [Unmarshal MustMarshal Ledger.cdc]. unfold Ledger.unmarshal, Ledger.marshal.
  cbn [MinDenom Exponent DisplayName].
  rewrite getString_putString, getUint_putUint.
  rewrite <- (app_nil_r (Ledger.putString displayName)), getString_putString.
  reflexivity.
Qed.

Lemma find_app_last {A} (f : A -> bool) (l : list A) (x : A) :
  f x = true -> find f (l ++ [x]) <> None.
Proof.
  intros Hx. induction l as [|y l IH]; simpl.
  - now rewrite Hx.
  - destruct (f y); [discriminate|exact IH].
Qed.

(** On the ledger, a contract deployed active is found by its
    denomination. *)
Lemma deployNew_found c m dm w0 a w' :
  Ledger.deployNew c m dm w0 = (inr a, w') ->
  Active c = true ->
  Ledger.getByDenom (MinDenom m) w' <> None.
Proof.
  unfold Ledger.deployNew. intros Hdeploy Hactive.
  destruct (Ledger.getModuleAccount Ledger.deployer w0) as [acc w1].
  unfold Ledger.create in Hdeploy.
  destruct (VirtualFrontierContract_.ValidateBasic _ _); [discriminate|].
  destruct (Ledger.hasAddress _ w1); [discriminate|].
  injection Hdeploy as _ <-.
  unfold Ledger.getByDenom. cbn [Ledger.contracts Ledger.withModuleAccounts Ledger.withContracts].
  match goal with
  | |- context [find ?f (?l ++ [?x])] =>
      pose proof (find_app_last f l x) as Hfind; destruct (find f (l ++ [x]))
  end; [discriminate|].
  exfalso. apply Hfind; [|reflexivity].
  unfold Ledger.isBankContractOf. cbn [Active Type_ Metadata].
  rewrite Hactive.
  change (Ledger.unmarshal (Ledger.marshal m))
    with (Unmarshal Ledger.cdc (MustMarshal Ledger.cdc m)).
  rewrite unmarshal_marshal, String.eqb_refl. reflexivity.
Qed.

(** ** The theorems on the ledger *)

Local Open Scope go_scope.
#[local] Existing Instance Ledger.keepers.

(** A Dymension chain refuses [EnableCreate]. *)
Lemma InitGenesis_enable_create_witness :
  InitGenesis (K := Ledger.keepers) (Samples.genesis "adym" true [] Samples.twoContracts)
    (Ledger.fresh true false 0)
  = Panics EnableCreateNotAllowed (Ledger.fresh true false 0).
Proof.
  apply (InitGenesis_enable_create_on_dymension (K := Ledger.keepers));
    reflexivity.
Defined.

(** Two well-formed records imported in bulk: the import completes with
    the deployer at sequence 2 and panics with the deployer at sequence
    0. *)
Lemma InitGenesis_deployer_sequence_witness :
  (exists w', InitGenesis (K := Ledger.keepers)
                (Samples.genesis "adym" false [] Samples.twoContracts)
                (Ledger.fresh false false 2) = Returns [] w')
  /\ (exists w', InitGenesis (K := Ledger.keepers)
                   (Samples.genesis "adym" false [] Samples.twoContracts)
                   (Ledger.fresh false false 0)
                 = Panics (InvalidDeployerSequence 2 0) w').
Proof.
  split.
  - destruct (InitGenesis_deployer_sequence (K := Ledger.keepers)
                (Samples.genesis "adym" false [] Samples.twoContracts)
                (Ledger.fresh false false 2)
                (world_of (importAll (K := Ledger.keepers)
                             (Samples.genesis "adym" false [] Samples.twoContracts)
                             (Ledger.fresh false false 2))))
      as (_ & _ & _ & Hok & _); [vm_compute; reflexivity|].
    eexists. apply Hok. vm_compute. reflexivity.
  - destruct (InitGenesis_deployer_sequence (K := Ledger.keepers)
                (Samples.genesis "adym" false [] Samples.twoContracts)
                (Ledger.fresh false false 0)
                (world_of (importAll (K := Ledger.keepers)
                             (Samples.genesis "adym" false [] Samples.twoContracts)
                             (Ledger.fresh false false 0))))
      as (_ & _ & Hpanic & _); [vm_compute; reflexivity|].
    eexists. apply Hpanic. vm_compute. discriminate.
Defined.

(** An entry with code [6001] against an account recorded with the hash
    of [6000] stops the import; the same entry with no code is imported. *)
Lemma InitGenesis_code_hash_check_witness :
  (exists codeHash ethCodeHash w1,
      codeHash <> ethCodeHash
      /\ InitGenesis (K := Ledger.keepers)
           (Samples.genesis "adym" false [Samples.entry "6001"] [])
           (Samples.withHolder (Ledger.fresh false false 0))
         = Panics (CodeHashMismatch Samples.holder codeHash ethCodeHash "6001") w1)
  /\ (exists w2,
        (policyPrecheck (K := Ledger.keepers)
           (Samples.genesis "adym" false [Samples.entry ""] []) ;;
         setUp (Samples.genesis "adym" false [Samples.entry ""] []) ;;
         importAccounts [Samples.entry ""])
          (Samples.withHolder (Ledger.fresh false false 0))
        = Returns tt w2).
Proof.
  split.
  - do 3 eexists. split.
    2:{ eapply (InitGenesis_code_hash_check (K := Ledger.keepers)
                 (Samples.genesis "adym" false [Samples.entry "6001"] [])
                 (Samples.withHolder (Ledger.fresh false false 0))
                 _ [] [] (Samples.entry "6001")
                 {| accSequence := 1; ethCodeHash := Some (Ledger.hash [x60; x00]) |}
                 (Ledger.hash [x60; x00]));
          try reflexivity; vm_compute; discriminate. }
    vm_compute. discriminate.
  - eexists.
    eapply (InitGenesis_code_hash_check (K := Ledger.keepers)
             (Samples.genesis "adym" false [Samples.entry ""] [])
             (Samples.withHolder (Ledger.fresh false false 0))
             _ [] [] (Samples.entry "")
             {| accSequence := 1; ethCodeHash := Some (Ledger.hash [x60; x00]) |}
             (Ledger.hash [x60; x00]));
      reflexivity.
Defined.

(** On a fresh development chain the step deploys the contract of the fee
    denomination; run again on the world it leaves, it finds the contract
    and changes nothing. *)
Lemma devnetBootstrap_idempotent_witness :
  exists w' a,
    devnetBootstrap (K := Ledger.keepers) (Samples.genesis "aphoton" false [] [])
      (Ledger.fresh false true 0) = Returns tt w'
    /\ Ledger.contracts w' <> []
    /\ Ledger.getByDenom "aphoton" w' = Some a
    /\ devnetBootstrap (K := Ledger.keepers) (Samples.genesis "aphoton" false [] []) w'
       = Returns tt w'.
Proof.
  exists (world_of (devnetBootstrap (K := Ledger.keepers)
                      (Samples.genesis "aphoton" false [] [])
                      (Ledger.fresh false true 0))).
  eexists. split; [vm_compute; reflexivity|].
  split; [vm_compute; discriminate|].
  split; [vm_compute; reflexivity|].
  apply (devnetBootstrap_idempotent (K := Ledger.keepers)
           (Samples.genesis "aphoton" false [] []) (Ledger.fresh false true 0)).
  - intros c m dm w0 a w'. apply deployNew_found.
  - vm_compute. reflexivity.
Defined.

(** A development chain with an empty fee denomination. *)
Lemma InitGenesis_empty_denom_witness :
  exists w1,
    InitGenesis (K := Ledger.keepers) (Samples.genesis "" false [] [])
      (Ledger.fresh false true 0)
    = Panics (SliceBoundsOutOfRange 1 0) w1.
Proof.
  eexists.
  apply (InitGenesis_empty_denom_on_devnet (K := Ledger.keepers)
           (Samples.genesis "" false [] []) (Ledger.fresh false true 0));
    reflexivity.
Defined.

(** ** Address text *)

Import VirtualFrontierContract_.


Lemma setBytes_exact (n : nat) (b : bytes) :
  List.length b = n -> common.setBytes n b = b.
Proof.
  intros <-. unfold common.setBytes.
  now rewrite Nat.ltb_irrefl, Nat.sub_diag.
Qed.

Lemma substring_all (s : string) : String.substring 0 (String.length s) s = s.
Proof. induction s as [|c s IH]; simpl; [reflexivity|now rewrite IH]. Qed.

Lemma FromHex_0x (s : string) :
  common.has0xPrefix s = false ->
  common.FromHex ("0x" ++ s) = common.FromHex s.
Proof.
  intros H. unfold common.FromHex at 1.
  cbn [common.has0xPrefix append Ascii.eqb Bool.eqb andb orb len String.length
       Nat.sub String.substring].
  rewrite Nat.sub_0_r, substring_all. unfold common.FromHex. now rewrite H.
Qed.

Lemma EncodeToString_length (b : bytes) :
  String.length (hex.EncodeToString b) = (2 * List.length b)%nat.
Proof. induction b as [|v b IH]; simpl; [reflexivity|rewrite IH; lia]. Qed.

(** A lowercase hex digit is the table's entry for its own value. *)
Lemma lowercase_hex_digit (c : ascii) :
  isHexCharacter c = true -> in_range "A" "F" c = false ->
  exists n, hex.fromHexChar c = Some n /\ (n < 16)%N /\ hex.hexdigit n = c.
Proof.
  destruct c as [[] [] [] [] [] [] [] []]; intros H1 H2;
    vm_compute in H1, H2; try discriminate;
    eexists; (split; [reflexivity|split; reflexivity]).
Qed.

Lemma nibble_in (n : N) : (n < 16)%N -> In n (map N.of_nat (seq 0 16)).
Proof.
  intros H. rewrite <- (N2Nat.id n). apply in_map, in_seq. lia.
Qed.

Lemma join_nibbles_split (a b : N) :
  (a < 16)%N -> (b < 16)%N ->
  N.shiftr (Byte.to_N (hex.join_nibbles a b)) 4 = a
  /\ N.land (Byte.to_N (hex.join_nibbles a b)) 15 = b.
Proof.
  intros Ha Hb.
  assert (H : forallb (fun a =>
                forallb (fun b =>
                  (N.shiftr (Byte.to_N (hex.join_nibbles a b)) 4 =? a)%N
                  && (N.land (Byte.to_N (hex.join_nibbles a b)) 15 =? b)%N)
                  (map N.of_nat (seq 0 16)))
                (map N.of_nat (seq 0 16)) = true)
    by (vm_compute; reflexivity).
  rewrite forallb_forall in H. specialize (H a (nibble_in a Ha)).
  rewrite forallb_forall in H. specialize (H b (nibble_in b Hb)).
  apply andb_true_iff in H as [H1 H2].
  now apply N.eqb_eq in H1, H2.
Qed.

(** Lowercase hex text of even length decodes without error, and encodes
    back to itself. *)
Lemma DecodeString_lowercase (n : nat) (t : string) :
  String.length t = (2 * n)%nat ->
  forallb isHexCharacter (list_ascii_of_string t) = true ->
  existsb (in_range "A" "F") (list_ascii_of_string t) = false ->
  exists b, hex.DecodeString t = (b, None) /\ hex.EncodeToString b = t.
Proof.
  revert t; induction n as [|n IH]; intros t Hlen Hhex Hlow.
  - destruct t; [|discriminate]. now exists [].
  - destruct t as [|p [|q rest]]; try (simpl in Hlen; lia).
    cbn [list_ascii_of_string forallb existsb] in Hhex, Hlow.
    apply andb_true_iff in Hhex as [Hp Hhex].
    apply andb_true_iff in Hhex as [Hq Hhex].
    apply orb_false_iff in Hlow as [Lp Hlow].
    apply orb_false_iff in Hlow as [Lq Hlow].
    destruct (IH rest) as (b & Hdec & Henc); [simpl in Hlen; lia|assumption..|].
    destruct (lowercase_hex_digit p Hp Lp) as (x & Hx & Bx & Dx).
    destruct (lowercase_hex_digit q Hq Lq) as (y & Hy & By & Dy).
    exists (hex.join_nibbles x y :: b). cbn [hex.DecodeString].
    rewrite Hx, Hy, Hdec. split; [reflexivity|].
    cbn [hex.EncodeToString].
    destruct (join_nibbles_split x y Bx By) as [-> ->].
    now rewrite Dx, Dy, Henc.
Qed.

(** An address text that passes the four address checks does not read as
    the zero address. *)
Lemma checked_address_not_zero (a : string) :
  a <> nilAddressText ->
  is20ByteHex a = true ->
  HasPrefix a "0x" = true ->
  hasUppercaseHex a = false ->
  common.HexToAddress a <> common.zeroAddress.
Proof.
  intros Hnil H20 Hprefix Hupper.
  unfold is20ByteHex in H20. rewrite Hprefix in H20.
  unfold HasPrefix in Hprefix.
  destruct a as [|c0 [|c1 t]]; cbn [String.prefix] in Hprefix;
    [discriminate|destruct (ascii_dec "0" c0); discriminate|].
  destruct (ascii_dec "0" c0) as [<-|]; [|discriminate].
  destruct (ascii_dec "x" c1) as [<-|]; [|discriminate].
  clear Hprefix.
  cbn [len String.length Nat.sub String.substring] in H20.
  rewrite Nat.sub_0_r, substring_all in H20.
  apply andb_true_iff in H20 as [Hlen Hhex]. apply Nat.eqb_eq in Hlen.
  unfold hasUppercaseHex in Hupper.
  cbn [list_ascii_of_string existsb] in Hupper.
  apply orb_false_iff in Hupper as [_ Hupper].
  apply orb_false_iff in Hupper as [_ Hupper].
  destruct (DecodeString_lowercase 20 t Hlen Hhex Hupper) as (b & Hdec & Henc).
  assert (Hb : List.length b = 20%nat).
  { pose proof (EncodeToString_length b) as L. rewrite Henc in L.
    unfold len in Hlen. lia. }
  unfold common.HexToAddress, common.FromHex.
  cbn [common.has0xPrefix Ascii.eqb Bool.eqb andb orb len String.length
       Nat.sub String.substring].
  rewrite Nat.sub_0_r, substring_all.
  unfold len in Hlen. rewrite Hlen. cbn [Nat.odd Nat.even negb].
  unfold common.Hex2Bytes. rewrite Hdec. cbn [fst].
  unfold common.BytesToAddress. rewrite (setBytes_exact common.AddressLength b Hb).
  intros ->. apply Hnil. rewrite <- Henc. reflexivity.
Qed.

(** ** The contract record *)

Lemma addressPasses_reads_nonzero (a : string) :
  addressPasses a ->
  (a =? "") = false /\ bytes_Equal (common.HexToAddress a) common.zeroAddress = false.
Proof.
  intros (Hnil & H20 & Hprefix & Hupper). split.
  - destruct a; [discriminate|reflexivity].
  - apply bytes_Equal_neq. now apply checked_address_not_zero.
Qed.

Lemma ValidateBasic_address_passes (cdc : BinaryCodec) (m : VirtualFrontierContract) :
  addressPasses (vfcAddress m) ->
  VirtualFrontierContract_.ValidateBasic cdc m
  = if (Type_ m =? VirtualFrontierContractTypeBankContract)%N
    then validateMetadata cdc m
    else Some "type must be specified".
Proof.
  intros Hpass.
  destruct (addressPasses_reads_nonzero _ Hpass) as [Hempty Hzero].
  destruct Hpass as (Hnil & H20 & Hprefix & Hupper).
  unfold VirtualFrontierContract_.ValidateBasic, ContractAddress, checkFormatTypeMetadata.
  rewrite Hempty, Hzero, H20, Hprefix, Hupper. cbn [negb andb].
  now destruct (Type_ m =? VirtualFrontierContractTypeBankContract)%N.
Qed.





(** The model of [ValidateBasic] passes the whole test table, with any
    codec that reads back what it marshals. *)
Lemma ValidateBasic_tests_pass (cdc : BinaryCodec) :
  (forall m, Unmarshal cdc (MustMarshal cdc m) = Some m) ->
  forallb (Tests.ValidateBasic_passes cdc VirtualFrontierContract_.ValidateBasic)
    (Tests.ValidateBasic_tests cdc) = true.
Proof.
  intros Hcdc.
  unfold Tests.ValidateBasic_tests, Tests.ValidateBasic_passes, Tests.bankContract,
    VirtualFrontierContract_.ValidateBasic, checkFormatTypeMetadata, validateMetadata,
    ContractAddress.
  cbn [forallb Tests.contract Tests.wantErr Tests.wantErrContains
       vfcAddress Type_ Metadata].
  rewrite !Hcdc. reflexivity.
Qed.

Lemma ValidateBasic_tests_pass_on_ledger :
  forallb (Tests.ValidateBasic_passes Ledger.cdc VirtualFrontierContract_.ValidateBasic)
    (Tests.ValidateBasic_tests Ledger.cdc) = true.
Proof. apply ValidateBasic_tests_pass, unmarshal_marshal. Qed.

(** [ValidateBasic] as the spec words it passes every case of the table
    but "missing address". *)
Lemma ValidateBasic_spec_tests (cdc : BinaryCodec) :
  (forall m, Unmarshal cdc (MustMarshal cdc m) = Some m) ->
  map (Tests.ValidateBasic_passes cdc ValidateBasic_spec) (Tests.ValidateBasic_tests cdc)
  = [true; true; true; true; true; true; false; true; true; true].
Proof.
  intros Hcdc.
  unfold Tests.ValidateBasic_tests, Tests.ValidateBasic_passes, Tests.bankContract,
    ValidateBasic_spec, checkFormatTypeMetadata, validateMetadata, ContractAddress.
  cbn [map Tests.contract Tests.wantErr Tests.wantErrContains
       vfcAddress Type_ Metadata].
  rewrite !Hcdc. reflexivity.
Qed.

(** The model of [ContractAddress] passes its test table. *)
Lemma ContractAddress_tests_pass :
  forallb Tests.ContractAddress_passes Tests.ContractAddress_tests = true.
Proof. reflexivity. Qed.



(** ** Bulk import on the ledger *)

Lemma genesisImport_appends (cs : list VirtualFrontierContract) (w w' : Ledger.World) :
  Ledger.genesisImport cs w = (None, w') ->
  w' = Ledger.withContracts (Ledger.contracts w ++ cs) w.
Proof.
  revert w; induction cs as [|c cs IH]; intros w; cbn [Ledger.genesisImport].
  - intros [= <-]. destruct w. unfold Ledger.withContracts.
    cbn. now rewrite app_nil_r.
  - unfold Ledger.create.
    destruct (VirtualFrontierContract_.ValidateBasic Ledger.cdc c); [discriminate|].
    destruct (Ledger.hasAddress (vfcAddress c) w); [discriminate|].
    intros H. apply IH in H. rewrite H. unfold Ledger.withContracts. cbn.
    now rewrite <- app_assoc.
Qed.

(** On a new chain that is neither a Dymension nor a development chain,
    the bulk import of well-formed records with distinct addresses leaves
    the deployer's sequence as it was: [InitGenesis] completes exactly when
    that sequence is the number of records, and so never when it is 0 and
    there is a record. *)
Lemma InitGenesis_bulk_import_on_ledger
    (denom : string) (cs : list VirtualFrontierContract) (seq : N) (w' : Ledger.World) :
  Ledger.genesisImport cs
    (world_of ((policyPrecheck (Samples.genesis denom false [] cs) ;;
                setUp (Samples.genesis denom false [] cs))
                 (Ledger.fresh false false seq)))
  = (None, w') ->
  (N.of_nat (List.length cs) < 2 ^ 64)%N ->
  (InitGenesis (Samples.genesis denom false [] cs) (Ledger.fresh false false seq)
   = Returns [] w'
   /\ seq = N.of_nat (List.length cs))
  \/ (InitGenesis (Samples.genesis denom false [] cs) (Ledger.fresh false false seq)
      = Panics (InvalidDeployerSequence (N.of_nat (List.length cs)) seq) w'
      /\ seq <> N.of_nat (List.length cs)).
Proof.
  intros Himport Hlen.
  pose proof (genesisImport_appends _ _ _ Himport) as Hw'.
  cbn [world_of Ledger.contracts Ledger.fresh app] in Hw'.
  assert (Hall : importAll (Samples.genesis denom false [] cs)
                   (Ledger.fresh false false seq) = Returns tt w').
  { unfold importAll, importVirtualFrontierContracts.
    cbn [Samples.genesis VirtualFrontierContracts Accounts].
    destruct cs as [|c cs].
    - cbn in Himport. injection Himport as <-. reflexivity.
    - cbn [List.length Nat.ltb Nat.leb].
      unfold bind at 1 2 3 4.
      cbn [policyPrecheck setUp importAccounts forEach devnetBootstrap].
      unfold bind at 1, call.
      change (GenesisImportVirtualFrontierContracts (c :: cs))
        with (Ledger.genesisImport (c :: cs)).
      cbn in Himport |- *. rewrite Himport. reflexivity. }
  rewrite InitGenesis_split, (bind_Returns _ _ _ _ _ Hall).
  unfold bind. rewrite ensureDeployerSequence_run, deployedVFCsCount_length.
  assert (Hseq : deployerSequence w' = seq) by (subst w'; reflexivity).
  assert (Hstored : StoredVirtualFrontierContracts w' = cs) by (subst w'; reflexivity).
  assert (Hsame : snd (GetModuleAccount ModuleVirtualFrontierContractDeployerName w') = w')
    by (subst w'; reflexivity).
  rewrite Hseq, Hstored, Hsame.
  unfold uint64. rewrite (N.mod_small _ _ Hlen).
  destruct (N.eqb_spec seq (N.of_nat (List.length cs))); [left|right]; auto.
Qed.

(** * Further properties *)

(** ** Export *)

Section ExportProperties.

Context {World DenomMeta : Type} `{K : Collaborators World DenomMeta}
  `{E : ExportCollaborators World}.

Lemma iterate_collect (records acc : list VirtualFrontierContract) :
  iterate records (fun contract vfContracts => (vfContracts ++ [contract], false)) acc
  = acc ++ records.
Proof.
  revert acc; induction records as [|r records IH]; intros acc; cbn [iterate].
  - now rewrite app_nil_r.
  - rewrite IH, <- app_assoc. reflexivity.
Qed.

Lemma iterateAccounts_collect (ctx : World) (accounts : list StoredAccount)
    (acc : list GenesisAccount) :
  iterateAccounts accounts
    (fun account ethGenAccounts =>
       match account with
       | BaseAccount => (ethGenAccounts, false)
       | EthAccount ethAccount =>
           (ethGenAccounts ++ [exportAccount ctx ethAccount], false)
       end) acc
  = acc ++ map (exportAccount ctx) (ethAccountsOf accounts).
Proof.
  revert acc; induction accounts as [|[|e] accounts IH]; intros acc;
    cbn [iterateAccounts ethAccountsOf map].
  - now rewrite app_nil_r.
  - apply IH.
  - rewrite IH, <- app_assoc. reflexivity.
Qed.

(** X1: the export emits every stored contract record, in the store's
    order and unfiltered, so an inactive record is exported too. *)
Theorem ExportGenesis_contracts (ctx : World) :
  VirtualFrontierContracts (ExportGenesis ctx) = StoredVirtualFrontierContracts ctx
  /\ forall c, In c (StoredVirtualFrontierContracts ctx) ->
               In c (VirtualFrontierContracts (ExportGenesis ctx)).
Proof.
  assert (H : VirtualFrontierContracts (ExportGenesis ctx)
              = StoredVirtualFrontierContracts ctx).
  { unfold ExportGenesis, IterateVirtualFrontierContracts.
    cbn [VirtualFrontierContracts]. apply iterate_collect. }
  split; [exact H|]. intros c Hc. now rewrite H.
Qed.

(** X2: the export emits one genesis account per stored Eth account, in
    the order of the iteration, and nothing for any other account. *)
Theorem ExportGenesis_accounts (ctx : World) :
  Accounts (ExportGenesis ctx)
  = map (exportAccount ctx) (ethAccountsOf (StoredAccounts ctx))
  /\ (List.length (Accounts (ExportGenesis ctx)) <= List.length (StoredAccounts ctx))%nat
  /\ ((forall a, In a (StoredAccounts ctx) -> a = BaseAccount) ->
      Accounts (ExportGenesis ctx) = []).
Proof.
  assert (H : Accounts (ExportGenesis ctx)
              = map (exportAccount ctx) (ethAccountsOf (StoredAccounts ctx))).
  { unfold ExportGenesis, IterateAccounts. cbn [Accounts].
    apply iterateAccounts_collect. }
  rewrite H. split; [reflexivity|split].
  - rewrite length_map.
    clear H. induction (StoredAccounts ctx) as [|[|e] l IH]; simpl; lia.
  - intros Hbase. clear H.
    induction (StoredAccounts ctx) as [|[|e] l IH]; cbn [ethAccountsOf map].
    + reflexivity.
    + apply IH. intros a Ha. apply Hbase. now right.
    + specialize (Hbase (EthAccount e) (or_introl eq_refl)). discriminate.
Qed.

(** The checksum's change of case is lost on decoding. *)
Lemma DecodeString_checksummed_byte (v : byte) (n1 n2 : N) (rest : string) :
  hex.DecodeString
    (String
       (if (N_of_ascii "9" <? N_of_ascii (hex.hexdigit (N.shiftr (Byte.to_N v) 4)))%N
           && (7 <? n1)%N
        then ascii_of_N (N_of_ascii (hex.hexdigit (N.shiftr (Byte.to_N v) 4)) - 32)
        else hex.hexdigit (N.shiftr (Byte.to_N v) 4))
       (String
          (if (N_of_ascii "9" <? N_of_ascii (hex.hexdigit (N.land (Byte.to_N v) 15)))%N
              && (7 <? n2)%N
           then ascii_of_N (N_of_ascii (hex.hexdigit (N.land (Byte.to_N v) 15)) - 32)
           else hex.hexdigit (N.land (Byte.to_N v) 15))
          rest))
  = (v :: fst (hex.DecodeString rest), snd (hex.DecodeString rest)).
Proof.
  destruct (7 <? n1)%N, (7 <? n2)%N; destruct v; cbn [hex.DecodeString];
    (destruct (hex.DecodeString rest); reflexivity).
Qed.

Lemma DecodeString_checksumCase (b : bytes) (nibbles : list N) :
  hex.DecodeString (checksumCase (hex.EncodeToString b) nibbles) = (b, None).
Proof.
  revert nibbles; induction b as [|v b IH]; intros nibbles; [reflexivity|].
  cbn [hex.EncodeToString checksumCase].
  rewrite DecodeString_checksummed_byte, IH. reflexivity.
Qed.

Lemma checksumCase_length (s : string) (nibbles : list N) :
  String.length (checksumCase s nibbles) = String.length s.
Proof.
  revert nibbles; induction s as [|c s IH]; intros nibbles; simpl;
    [reflexivity|now rewrite IH].
Qed.

Lemma HexToAddress_Address_String (a : common.Address) :
  List.length a = common.AddressLength ->
  common.HexToAddress (Address_String a) = a.
Proof.
  intros Ha. unfold Address_String, common.HexToAddress, common.FromHex.
  cbn [append common.has0xPrefix Ascii.eqb Bool.eqb andb orb len String.length
       Nat.sub String.substring].
  rewrite Nat.sub_0_r, substring_all.
  unfold len. rewrite checksumCase_length, EncodeToString_length.
  assert (Nat.odd (2 * List.length a) = false) as ->.
  { rewrite <- Nat.negb_even, Nat.even_mul. reflexivity. }
  unfold common.Hex2Bytes. rewrite DecodeString_checksumCase. cbn [fst].
  now apply setBytes_exact.
Qed.

(** X3: read back with [common.HexToAddress], as the import reads them,
    the address texts of the exported accounts are the addresses of the
    stored Eth accounts, whatever case the checksum gave their letters. *)
Theorem ExportGenesis_addresses_round_trip (ctx : World) :
  (forall e, In e (ethAccountsOf (StoredAccounts ctx)) ->
             List.length (EthAddress e) = common.AddressLength) ->
  map (fun account => common.HexToAddress (Address account))
    (Accounts (ExportGenesis ctx))
  = map EthAddress (ethAccountsOf (StoredAccounts ctx)).
Proof.
  intros Hlen.
  assert (H : Accounts (ExportGenesis ctx)
              = map (exportAccount ctx) (ethAccountsOf (StoredAccounts ctx))).
  { unfold ExportGenesis, IterateAccounts. cbn [Accounts].
    apply iterateAccounts_collect. }
  rewrite H, map_map. apply map_ext_in. intros e He.
  cbn [exportAccount Address]. now apply HexToAddress_Address_String, Hlen.
Qed.

(** X4: an exported account passes the import's code check and is written
    again, on any world where its address holds an Eth account with the
    same code hash, provided its stored code is empty or hashes to that
    code hash; the code the import decodes is the stored code. *)
Theorem exported_account_reimports
    (ctx w : World) (ethAccount : EthAccountI) (acc : AccountI) :
  List.length (EthAddress ethAccount) = common.AddressLength ->
  GetAccount (EthAddress ethAccount) w = Some acc ->
  ethCodeHash acc = Some (GetCodeHash ethAccount) ->
  (GetCode (GetCodeHash ethAccount) ctx = []
   \/ Keccak256Hash (GetCode (GetCodeHash ethAccount) ctx) = GetCodeHash ethAccount) ->
  common.Hex2Bytes (Code (exportAccount ctx ethAccount))
  = GetCode (GetCodeHash ethAccount) ctx
  /\ importAccount (exportAccount ctx ethAccount) w
     = Returns tt (accountWritten (exportAccount ctx ethAccount) w).
Proof.
  intros Hlen Hacc Heth Hcode.
  assert (Hdecode : common.Hex2Bytes (Code (exportAccount ctx ethAccount))
                    = GetCode (GetCodeHash ethAccount) ctx)
    by apply Hex2Bytes_EncodeToString.
  split; [exact Hdecode|].
  assert (Haddr : common.HexToAddress (Address (exportAccount ctx ethAccount))
                  = EthAddress ethAccount)
    by (now apply HexToAddress_Address_String).
  destruct Hcode as [Hempty|Hhash].
  - apply (importAccount_empty_code _ w acc (GetCodeHash ethAccount)).
    + now rewrite Haddr.
    + exact Heth.
    + cbn [exportAccount Code]. now rewrite Hempty.
  - apply (importAccount_matching _ w acc).
    + now rewrite Haddr.
    + now rewrite Hdecode, Hhash.
Qed.

End ExportProperties.

(** ** The account loop *)

Section AccountLoop.

Context {World DenomMeta : Type} `{K : Collaborators World DenomMeta}.

Local Open Scope go_scope.

Lemma importAccount_panic_inv (account : GenesisAccount) (w w' : World) (p : Panic) :
  importAccount account w = Panics p w' ->
  w' = w
  /\ (p = AccountNotFound (Address account)
      \/ p = NotAnEthAccount (Address account)
      \/ exists h,
           p = CodeHashMismatch (Address account)
                 (Keccak256Hash (common.Hex2Bytes (Code account))) h (Code account)).
Proof.
  unfold importAccount, bind, gets, panic.
  destruct (GetAccount _ w) as [acc|]; [|intros [= <- <-]; auto].
  destruct (ethCodeHash acc) as [h|]; [|intros [= <- <-]; auto].
  destruct (negb _ && negb _).
  - intros [= <- <-]. eauto.
  - unfold modify at 1. rewrite forEach_storage. discriminate.
Qed.

(** X5: one entry of the account loop is imported exactly when its
    address holds an account, that account is an Eth account, and the
    entry's code is empty or hashes to the account's code hash; what is
    written then is the code under its hash and every storage slot. *)
Theorem importAccount_returns_iff (account : GenesisAccount) (w w' : World) :
  importAccount account w = Returns tt w'
  <-> exists acc h,
        GetAccount (common.HexToAddress (Address account)) w = Some acc
        /\ ethCodeHash acc = Some h
        /\ (Code account = ""
            \/ Keccak256Hash (common.Hex2Bytes (Code account)) = h)
        /\ w' = accountWritten account w.
Proof.
  split.
  - unfold importAccount, bind, gets, panic.
    destruct (GetAccount _ w) as [acc|] eqn:Hacc; [|discriminate].
    destruct (ethCodeHash acc) as [h|] eqn:Heth; [|discriminate].
    destruct (negb (len (Code account) =? 0)%nat
              && negb (bytes_Equal h (Keccak256Hash (common.Hex2Bytes (Code account)))))
      eqn:Hcheck; [discriminate|].
    unfold modify at 1. rewrite forEach_storage. intros [= <-].
    exists acc, h.
    split; [reflexivity|]. split; [exact Heth|]. split; [|reflexivity].
    apply andb_false_iff in Hcheck as [Hnil|Hhash].
    + left. apply negb_false_iff, Nat.eqb_eq in Hnil.
      destruct (Code account); [reflexivity|discriminate].
    + right. apply negb_false_iff, bytes_Equal_eq in Hhash. now symmetry.
  - intros (acc & h & Hacc & Heth & [Hcode|Hhash] & ->).
    + now apply (importAccount_empty_code account w acc h).
    + apply (importAccount_matching account w acc); [exact Hacc|].
      now rewrite Hhash.
Qed.

(** X6: the loop stops at the first entry that fails: the entries before
    it stay written, the failing entry writes nothing, and the entries
    after it are not looked at; the panic is one of the loop's three. *)
Theorem importAccounts_stops_at_first_failure
    (pre post : list GenesisAccount) (account : GenesisAccount)
    (w w1 w' : World) (p : Panic) :
  importAccounts pre w = Returns tt w1 ->
  importAccount account w1 = Panics p w' ->
  importAccounts (pre ++ account :: post) w = Panics p w1
  /\ w' = w1
  /\ (p = AccountNotFound (Address account)
      \/ p = NotAnEthAccount (Address account)
      \/ exists h,
           p = CodeHashMismatch (Address account)
                 (Keccak256Hash (common.Hex2Bytes (Code account))) h (Code account)).
Proof.
  intros Hpre Hfail.
  destruct (importAccount_panic_inv account w1 w' p Hfail) as [-> Hp].
  split; [|split; [reflexivity|exact Hp]].
  unfold importAccounts in *. rewrite forEach_app.
  rewrite (bind_Returns _ _ _ _ _ Hpre). cbn [forEach].
  now apply bind_Panics.
Qed.

Lemma GetAccount_accountWritten (account : GenesisAccount) (a : bytes) (w : World) :
  (forall a h code w0, GetAccount a (SetCode h code w0) = GetAccount a w0) ->
  (forall a addr k v w0, GetAccount a (SetState addr k v w0) = GetAccount a w0) ->
  GetAccount a (accountWritten account w) = GetAccount a w.
Proof.
  intros Hcode Hstate. unfold accountWritten.
  transitivity (GetAccount a
                  (SetCode (Keccak256Hash (common.Hex2Bytes (Code account)))
                     (common.Hex2Bytes (Code account)) w)); [|apply Hcode].
  generalize (SetCode (Keccak256Hash (common.Hex2Bytes (Code account)))
                (common.Hex2Bytes (Code account)) w).
  unfold storageWritten.
  induction (Storage account) as [|st storage IH]; intros w0; cbn [fold_left];
    [reflexivity|].
  rewrite IH. apply Hstate.
Qed.

(** X7: when writing code and storage leaves the accounts as they are, a
    genesis whose every entry names an Eth account of the starting world,
    with empty code or code that hashes to the account's code hash, is
    imported whole: the loop returns, and the world is the entries'
    writes, one entry after the other. *)
Theorem importAccounts_all_written (accounts : list GenesisAccount) (w : World) :
  (forall a h code w0, GetAccount a (SetCode h code w0) = GetAccount a w0) ->
  (forall a addr k v w0, GetAccount a (SetState addr k v w0) = GetAccount a w0) ->
  (forall account, In account accounts ->
     exists acc h,
       GetAccount (common.HexToAddress (Address account)) w = Some acc
       /\ ethCodeHash acc = Some h
       /\ (Code account = ""
           \/ Keccak256Hash (common.Hex2Bytes (Code account)) = h)) ->
  importAccounts accounts w
  = Returns tt (fold_left (fun w account => accountWritten account w) accounts w).
Proof.
  intros Hcode Hstate. revert w.
  induction accounts as [|account accounts IH]; intros w Hall; [reflexivity|].
  unfold importAccounts in *. cbn [forEach fold_left].
  destruct (Hall account (or_introl eq_refl)) as (acc & h & Hacc & Heth & Hcheck).
  assert (Hrun : importAccount account w = Returns tt (accountWritten account w)).
  { destruct Hcheck as [Hempty|Hhash].
    - now apply (importAccount_empty_code account w acc h).
    - apply (importAccount_matching account w acc); [exact Hacc|].
      now rewrite Hhash. }
  rewrite (bind_Returns _ _ _ _ _ Hrun). apply IH.
  intros account' Hin.
  rewrite (GetAccount_accountWritten account _ w Hcode Hstate).
  apply Hall. now right.
Qed.

(** X8: the account loop reads an entry's address with or without its
    [0x]: an entry is imported under the one text exactly when it is
    under the other, with the same writes. *)
Theorem importAccount_0x_optional
    (s code : string) (storage : list State) (w w' : World) :
  common.has0xPrefix s = false ->
  importAccount {| Address := "0x" ++ s; Code := code; Storage := storage |} w
  = Returns tt w'
  <-> importAccount {| Address := s; Code := code; Storage := storage |} w
      = Returns tt w'.
Proof.
  intros Hs. unfold importAccount, bind, gets, panic, common.HexToAddress.
  cbn [Address Code Storage]. rewrite (FromHex_0x s Hs).
  destruct (GetAccount _ w) as [acc|]; [|split; discriminate].
  destruct (ethCodeHash acc) as [h|]; [|split; discriminate].
  destruct (negb _ && negb _); [split; discriminate|reflexivity].
Qed.

End AccountLoop.

(** ** The stages of the import *)

Section Stages.

Context {World DenomMeta : Type} `{K : Collaborators World DenomMeta}.

Local Open Scope go_scope.

Lemma policyPrecheck_inv (data : GenesisState) (w : World) :
  (IsOneOfDymensionChains w && EnableCreate (params data) = false
   /\ policyPrecheck data w = Returns tt w)
  \/ (IsOneOfDymensionChains w && EnableCreate (params data) = true
      /\ policyPrecheck data w = Panics EnableCreateNotAllowed w).
Proof.
  unfold policyPrecheck, bind, gets.
  destruct (IsOneOfDymensionChains w && EnableCreate (params data)); auto.
Qed.

(** The world [setUp] leaves when it returns. *)
Lemma setUp_returns_inv (data : GenesisState) (w w' : World) :
  setUp data w = Returns tt w' ->
  fst (SetParams (params data) (WithChainID w)) = None
  /\ w' = snd (SetParams (params data) (WithChainID w))
  /\ GetModuleAddress ModuleName w' <> None
  /\ GetModuleAddress ModuleVirtualFrontierContractDeployerName w' <> None.
Proof.
  unfold setUp, bind, modify, call, gets, panic, ret.
  destruct (SetParams (params data) (WithChainID w)) as [[e|] w0]; [discriminate|].
  cbn [fst snd].
  destruct (GetModuleAddress ModuleName w0) eqn:H1; [|discriminate].
  destruct (GetModuleAddress ModuleVirtualFrontierContractDeployerName w0) eqn:H2;
    [|discriminate].
  intros [= <-]. rewrite H1, H2. repeat split; discriminate.
Qed.

Lemma setUp_panic_inv (data : GenesisState) (w w' : World) (p : Panic) :
  setUp data w = Panics p w' ->
  (exists e, p = ErrorSettingParams e)
  \/ p = EvmModuleAccountNotSet
  \/ p = VfcDeployerAccountNotSet.
Proof.
  unfold setUp, bind, modify, call, gets, panic, ret.
  destruct (SetParams (params data) (WithChainID w)) as [[e|] w0];
    [intros [= <- _]; eauto|].
  destruct (GetModuleAddress ModuleName w0); [|intros [= <- _]; auto].
  destruct (GetModuleAddress ModuleVirtualFrontierContractDeployerName w0);
    [discriminate|intros [= <- _]; auto].
Qed.

Lemma importAccounts_panic_inv (accounts : list GenesisAccount) (w w' : World) (p : Panic) :
  importAccounts accounts w = Panics p w' ->
  exists account,
    In account accounts
    /\ (p = AccountNotFound (Address account)
        \/ p = NotAnEthAccount (Address account)
        \/ exists h,
             p = CodeHashMismatch (Address account)
                   (Keccak256Hash (common.Hex2Bytes (Code account))) h (Code account)).
Proof.
  unfold importAccounts. revert w.
  induction accounts as [|account accounts IH]; intros w; cbn [forEach];
    [discriminate|].
  unfold bind. destruct (importAccount account w) as [[] w1|q w1] eqn:Hrun.
  - intros H. destruct (IH _ H) as (a & Hin & Ha). exists a. split; [now right|exact Ha].
  - intros [= <- <-]. exists account. split; [now left|].
    now destruct (importAccount_panic_inv account w w1 q Hrun).
Qed.

(** A panic of the development-network step. *)
Lemma devnetBootstrap_panic_inv (data : GenesisState) (w w' : World) (p : Panic) :
  devnetBootstrap data w = Panics p w' ->
  IsEthermintDevChain w = true
  /\ GetVirtualFrontierBankContractAddressByDenom (EvmDenom (params data)) w = None
  /\ ((p = SliceBoundsOutOfRange 1 0
       /\ EvmDenom (params data) = ""
       /\ GetDenomMetaData "" w = None
       /\ w' = w)
      \/ (exists m, p = InvalidBankDenomMetadata m)
      \/ (exists e, p = DeployError e)).
Proof.
  rewrite devnetBootstrap_run.
  destruct (IsEthermintDevChain w); [|discriminate].
  destruct (GetVirtualFrontierBankContractAddressByDenom _ w); [discriminate|].
  intros H. split; [reflexivity|split; [reflexivity|]]. revert H.
  unfold deployNativeBankContract, bind, gets, call, ret, panic, modify.
  destruct (GetDenomMetaData (EvmDenom (params data)) w) as [meta|] eqn:Hmeta.
  - destruct (CollectMetadataForVirtualFrontierBankContract meta) as [dm valid].
    destruct valid; cbn [negb]; [|intros [= <- _]; eauto].
    destruct (DeployNewVirtualFrontierBankContract _ _ dm w) as [[err|a] w2];
      [intros [= <- _]; eauto|discriminate].
  - destruct (EvmDenom (params data)) as [|c denom]; cbn [slice_from len String.length].
    + intros [= <- <-]. left. auto.
    + destruct (CollectMetadataForVirtualFrontierBankContract _) as [dm valid].
      destruct valid; cbn [negb]; [|intros [= <- _]; eauto].
      destruct (DeployNewVirtualFrontierBankContract _ _ dm _) as [[err|a] w2];
        [intros [= <- _]; eauto|discriminate].
Qed.

Lemma importVirtualFrontierContracts_panic_inv (data : GenesisState) (w w' : World) (p : Panic) :
  importVirtualFrontierContracts data w = Panics p w' ->
  exists e, p = ImportError e.
Proof.
  unfold importVirtualFrontierContracts, bind, call, panic, ret.
  destruct (0 <? _)%nat; [|discriminate].
  destruct (GenesisImportVirtualFrontierContracts _ w) as [[e|] w1];
    [intros [= <- _]; eauto|discriminate].
Qed.

(** X9: [InitGenesis] returns nothing but the empty validator-update
    list, and returns only if the chain's policy allows the parameters,
    [SetParams] took them, and both module accounts have an address in
    the world [SetParams] left. *)
Theorem InitGenesis_returns_inv (data : GenesisState) (w w' : World)
    (updates : list ValidatorUpdate) :
  InitGenesis data w = Returns updates w' ->
  updates = []
  /\ IsOneOfDymensionChains w && EnableCreate (params data) = false
  /\ fst (SetParams (params data) (WithChainID w)) = None
  /\ GetModuleAddress ModuleName (snd (SetParams (params data) (WithChainID w))) <> None
  /\ GetModuleAddress ModuleVirtualFrontierContractDeployerName
       (snd (SetParams (params data) (WithChainID w))) <> None.
Proof.
  intros Hrun. unfold InitGenesis in Hrun.
  apply bind_returns_inv in Hrun as ([] & wa & Hpolicy & Hrun).
  apply bind_returns_inv in Hrun as ([] & wb & Hsetup & Hrun).
  apply bind_returns_inv in Hrun as ([] & wc & _ & Hrun).
  apply bind_returns_inv in Hrun as ([] & wd & _ & Hrun).
  apply bind_returns_inv in Hrun as ([] & we & _ & Hrun).
  apply bind_returns_inv in Hrun as ([] & wf & _ & Hrun).
  injection Hrun as <- _.
  split; [reflexivity|].
  destruct (policyPrecheck_inv data w) as [[Hok Hp]|[_ Hp]];
    rewrite Hp in Hpolicy; [|discriminate].
  injection Hpolicy as <-.
  destruct (setUp_returns_inv data w wb Hsetup) as (Hparams & -> & Hevm & Hdeployer).
  auto.
Qed.

(** X10: [InitGenesis] panics from the development-network step only
    after the stages before it have gone through, on a development chain
    that has no bank contract for the fee denomination; and with the
    slice-bounds panic only if, besides, the fee denomination is empty and
    has no metadata, in which case the step has written nothing. *)
Theorem InitGenesis_devnet_panics (data : GenesisState) (w w' : World) (p : Panic) :
  InitGenesis data w = Panics p w' ->
  match p with
  | SliceBoundsOutOfRange _ _ | InvalidBankDenomMetadata _ | DeployError _ => True
  | _ => False
  end ->
  exists w1,
    (policyPrecheck data ;; setUp data ;; importAccounts (Accounts data)) w
    = Returns tt w1
    /\ IsEthermintDevChain w1 = true
    /\ GetVirtualFrontierBankContractAddressByDenom (EvmDenom (params data)) w1 = None
    /\ forall low length,
         p = SliceBoundsOutOfRange low length ->
         low = 1%nat /\ length = 0%nat
         /\ EvmDenom (params data) = ""
         /\ GetDenomMetaData "" w1 = None
         /\ w' = w1.
Proof.
  intros Hrun Hkind.
  destruct ((policyPrecheck data ;; setUp data ;; importAccounts (Accounts data)) w)
    as [[] w1|q wq] eqn:Hpre.
  - rewrite (InitGenesis_from_accounts data w (Accounts data) [] w1) in Hrun;
      [|now rewrite app_nil_r|exact Hpre].
    unfold importAccounts in Hrun. cbn [forEach] in Hrun.
    unfold bind at 1, ret in Hrun. unfold bind at 1 in Hrun.
    exists w1. split; [reflexivity|].
    destruct (devnetBootstrap data w1) as [[] w2|q w2] eqn:Hdev.
    + exfalso. unfold bind at 1 in Hrun.
      destruct (importVirtualFrontierContracts data w2) as [[] w3|q w3] eqn:Himp.
      * unfold bind at 1 in Hrun. rewrite ensureDeployerSequence_run in Hrun.
        destruct (deployerSequence w3 =? deployedVFCsCount w3)%N;
          [discriminate|].
        injection Hrun as <- _. exact Hkind.
      * injection Hrun as <- _.
        apply importVirtualFrontierContracts_panic_inv in Himp as (e & ->).
        exact Hkind.
    + injection Hrun as <- <-.
      destruct (devnetBootstrap_panic_inv data w1 w2 q Hdev)
        as (Hchain & Hnone & Hcases).
      split; [exact Hchain|split; [exact Hnone|]].
      intros low length ->.
      destruct Hcases as [(Hp & Hdenom & Hmeta & Hw)|[(m & Hp)|(e & Hp)]];
        try discriminate.
      injection Hp as -> ->. auto.
  - exfalso.
    assert (Hwhole : InitGenesis data w = Panics q wq).
    { unfold InitGenesis. unfold bind in Hpre |- *.
      destruct (policyPrecheck data w) as [[] wa|];
        [|now injection Hpre as -> ->].
      destruct (setUp data wa) as [[] wb|]; [|now injection Hpre as -> ->].
      destruct (importAccounts (Accounts data) wb);
        [discriminate|now injection Hpre as -> ->]. }
    rewrite Hwhole in Hrun. injection Hrun as <- <-.
    unfold bind in Hpre.
    destruct (policyPrecheck_inv data w) as [[_ Hp]|[_ Hp]]; rewrite Hp in Hpre;
      [|injection Hpre as <- _; exact Hkind].
    destruct (setUp data w) as [[] wb|q' wb] eqn:Hsetup.
    + destruct (importAccounts (Accounts data) wb) as [|q' wc] eqn:Hacc;
        [discriminate|].
      injection Hpre as <- _.
      destruct (importAccounts_panic_inv _ _ _ _ Hacc)
        as (a & _ & [->|[->|(h & ->)]]); exact Hkind.
    + injection Hpre as <- _.
      destruct (setUp_panic_inv _ _ _ _ Hsetup) as [(e & ->)|[->| ->]]; exact Hkind.
Qed.

End Stages.

(** ** Import, then export *)

Section ImportThenExport.

Context {World DenomMeta : Type} `{K : Collaborators World DenomMeta}
  `{E : ExportCollaborators World}.

Local Open Scope go_scope.

(** X11: when reading a module account neither touches the stored
    contracts nor changes the sequence read next, the world a completed
    [InitGenesis] leaves exports exactly as many contract records as the
    deployer's sequence number there says. *)
Theorem InitGenesis_then_ExportGenesis (data : GenesisState) (w w' : World)
    (updates : list ValidatorUpdate) :
  (forall name w0,
      StoredVirtualFrontierContracts (snd (GetModuleAccount name w0))
      = StoredVirtualFrontierContracts w0) ->
  (forall name w0,
      GetSequence (fst (GetModuleAccount name (snd (GetModuleAccount name w0))))
      = GetSequence (fst (GetModuleAccount name w0))) ->
  InitGenesis data w = Returns updates w' ->
  deployerSequence w'
  = uint64 (N.of_nat (List.length (VirtualFrontierContracts (ExportGenesis w')))).
Proof.
  intros Hstored Hseq Hrun.
  rewrite InitGenesis_split in Hrun.
  apply bind_returns_inv in Hrun as ([] & w1 & _ & Hrun).
  apply bind_returns_inv in Hrun as ([] & w2 & Hcheck & Hrun).
  injection Hrun as _ <-.
  rewrite ensureDeployerSequence_run in Hcheck.
  destruct (N.eqb_spec (deployerSequence w1) (deployedVFCsCount w1)) as [Heq|];
    [|discriminate].
  injection Hcheck as <-.
  unfold deployerSequence at 1. rewrite Hseq. fold (deployerSequence w1).
  rewrite Heq, deployedVFCsCount_length.
  unfold ExportGenesis, IterateVirtualFrontierContracts.
  cbn [VirtualFrontierContracts]. rewrite iterate_collect, Hstored. reflexivity.
Qed.

End ImportThenExport.

(** ** The dispatcher, further *)

Lemma found_method_text (m : VFBankContractMetadata) (input : bytes)
    (method : VFBankContractMethod) :
  GetMethodFromSignature m input = (method, true) ->
  (4 <= List.length input)%nat
  /\ ToLower (hex.EncodeToString (firstn 4 input))
     = match method with
       | VFBCmUnknown => ""
       | VFBCmName => "06fdde03"
       | VFBCmSymbol => "95d89b41"
       | VFBCmDecimals => "313ce567"
       | VFBCmTotalSupply => "18160ddd"
       | VFBCmBalanceOf => "70a08231"
       | VFBCmTransfer => "a9059cbb"
       end.
Proof.
  unfold GetMethodFromSignature.
  destruct (Nat.ltb_spec (List.length input) 4) as [|Hlen]; [discriminate|].
  cbv zeta.
  repeat match goal with
  | |- context [String.eqb ?s ?t] =>
      destruct (String.eqb_spec s t) as [Htext|_];
        [intros [= <-]; split; [exact Hlen|exact Htext]|]
  end.
  discriminate.
Qed.

(** X12: the method depends on the first four bytes of the payload only:
    neither the bytes after them nor the metadata the method is called on
    change it. *)
Theorem GetMethodFromSignature_selector_only
    (m m' : VFBankContractMetadata) (input rest : bytes) :
  (4 <= List.length input)%nat ->
  GetMethodFromSignature m' (firstn 4 input ++ rest) = GetMethodFromSignature m input.
Proof.
  intros Hlen. unfold GetMethodFromSignature.
  assert (Hfirst : List.length (firstn 4 input) = 4%nat)
    by (rewrite length_firstn; lia).
  assert (firstn 4 (firstn 4 input ++ rest) = firstn 4 input) as ->.
  { rewrite firstn_app, Hfirst, Nat.sub_diag, firstn_O, app_nil_r.
    apply firstn_all2. lia. }
  assert ((List.length (firstn 4 input ++ rest) <? 4)%nat = false) as ->
    by (apply Nat.ltb_ge; rewrite length_app; lia).
  assert ((List.length input <? 4)%nat = false) as -> by (now apply Nat.ltb_ge).
  reflexivity.
Qed.

(** X13: two payloads that are found to name the same method start with
    the same four bytes: no method has two selectors. *)
Theorem GetMethodFromSignature_one_selector
    (m : VFBankContractMetadata) (a b : bytes) (method : VFBankContractMethod) :
  GetMethodFromSignature m a = (method, true) ->
  GetMethodFromSignature m b = (method, true) ->
  firstn 4 a = firstn 4 b.
Proof.
  intros Ha Hb.
  apply found_method_text in Ha as [_ Ha]. apply found_method_text in Hb as [_ Hb].
  rewrite <- Hb, !ToLower_EncodeToString in Ha.
  now apply EncodeToString_inj.
Qed.

(** ** The further theorems on the ledger *)

#[local] Existing Instance LedgerExport.keepers.

Lemma ExportGenesis_addresses_round_trip_witness :
  map (fun account => common.HexToAddress (Address account))
    (Accounts (ExportGenesis ExportSamples.chain))
  = [common.HexToAddress Samples.holder].
Proof.
  rewrite (ExportGenesis_addresses_round_trip ExportSamples.chain);
    [reflexivity|].
  intros e [<-|[]]. reflexivity.
Defined.

Lemma exported_account_reimports_witness :
  importAccount (exportAccount ExportSamples.chain ExportSamples.holderAccount)
    ExportSamples.chain
  = Returns tt
      (accountWritten (exportAccount ExportSamples.chain ExportSamples.holderAccount)
         ExportSamples.chain).
Proof.
  apply (exported_account_reimports ExportSamples.chain ExportSamples.chain
           ExportSamples.holderAccount
           {| accSequence := 1; ethCodeHash := Some (Ledger.hash [x60; x00]) |});
    try reflexivity.
  right. reflexivity.
Defined.

Lemma importAccounts_stops_at_first_failure_witness :
  exists p w1,
    importAccounts [Samples.entry ""; Samples.entry "6001"; Samples.entry "6000"]
      (Samples.withHolder (Ledger.fresh false false 0))
    = Panics p w1
    /\ List.length (Ledger.codeStore w1) = 1%nat.
Proof.
  do 2 eexists. split.
  - apply (importAccounts_stops_at_first_failure
             [Samples.entry ""] [Samples.entry "6000"] (Samples.entry "6001")
             (Samples.withHolder (Ledger.fresh false false 0))
             (world_of (importAccounts [Samples.entry ""]
                          (Samples.withHolder (Ledger.fresh false false 0))))
             (world_of (importAccounts [Samples.entry ""]
                          (Samples.withHolder (Ledger.fresh false false 0))))
             (CodeHashMismatch Samples.holder (Ledger.hash [x60; x01])
                (Ledger.hash [x60; x00]) "6001"));
      reflexivity.
  - reflexivity.
Defined.

Lemma importAccounts_all_written_witness :
  exists w',
    importAccounts [Samples.entry ""; Samples.entry "6000"]
      (Samples.withHolder (Ledger.fresh false false 0))
    = Returns tt w'
    /\ List.length (Ledger.codeStore w') = 2%nat.
Proof.
  eexists. split.
  - apply (importAccounts_all_written
             [Samples.entry ""; Samples.entry "6000"]
             (Samples.withHolder (Ledger.fresh false false 0)));
      try reflexivity.
    intros account [<-|[<-|[]]]; do 2 eexists;
      (split; [reflexivity|split; [reflexivity|]]).
    + left. reflexivity.
    + right. reflexivity.
  - reflexivity.
Defined.

Lemma importAccount_0x_optional_witness :
  exists w',
    importAccount
      {| Address := "405b96e2538ac85ee862e332fa634b158d013ae1"; Code := "6000";
         Storage := [ {| Key := "0x01"; Value := "0x2a" |} ] |}
      (Samples.withHolder (Ledger.fresh false false 0))
    = Returns tt w'.
Proof.
  exists (world_of
            (importAccount (Samples.entry "6000")
               (Samples.withHolder (Ledger.fresh false false 0)))).
  apply (importAccount_0x_optional "405b96e2538ac85ee862e332fa634b158d013ae1"
           "6000" [ {| Key := "0x01"; Value := "0x2a" |} ]
           (Samples.withHolder (Ledger.fresh false false 0)));
    vm_compute; reflexivity.
Defined.

Lemma InitGenesis_returns_inv_witness :
  fst (SetParams (params (Samples.genesis "adym" false [] Samples.twoContracts))
         (WithChainID (Ledger.fresh false false 2)))
  = None.
Proof.
  destruct (InitGenesis_returns_inv
              (Samples.genesis "adym" false [] Samples.twoContracts)
              (Ledger.fresh false false 2)
              (world_of (InitGenesis (Samples.genesis "adym" false [] Samples.twoContracts)
                           (Ledger.fresh false false 2)))
              [])
    as (_ & _ & H & _); [vm_compute; reflexivity|exact H].
Defined.

Lemma InitGenesis_devnet_panics_witness :
  exists w1,
    (policyPrecheck (Samples.genesis "" false [] []) ;;
     setUp (Samples.genesis "" false [] []) ;;
     importAccounts [])
      (Ledger.fresh false true 0)
    = Returns tt w1
    /\ IsEthermintDevChain w1 = true.
Proof.
  destruct (InitGenesis_devnet_panics (Samples.genesis "" false [] [])
              (Ledger.fresh false true 0)
              (world_of (InitGenesis (Samples.genesis "" false [] [])
                           (Ledger.fresh false true 0)))
              (SliceBoundsOutOfRange 1 0))
    as (w1 & Hpre & Hchain & _); [vm_compute; reflexivity|exact I|].
  exists w1. split; [exact Hpre|exact Hchain].
Defined.

Lemma lookup_setSequence (name : string) (n : N) (l : list (string * N)) :
  Ledger.lookup String.eqb name (Ledger.setSequence name n l) = Some n.
Proof.
  induction l as [|[k v] l IH]; cbn [Ledger.setSequence Ledger.lookup].
  - now rewrite String.eqb_refl.
  - destruct (String.eqb_spec k name) as [->|Hk]; cbn [Ledger.lookup].
    + now rewrite String.eqb_refl.
    + destruct (String.eqb_spec name k); [congruence|exact IH].
Qed.

Lemma getModuleAccount_contracts (name : string) (w : Ledger.World) :
  Ledger.contracts (snd (Ledger.getModuleAccount name w)) = Ledger.contracts w.
Proof.
  unfold Ledger.getModuleAccount.
  now destruct (Ledger.lookup String.eqb name (Ledger.moduleAccounts w)).
Qed.

Lemma getModuleAccount_again (name : string) (w : Ledger.World) :
  GetSequence (fst (Ledger.getModuleAccount name (snd (Ledger.getModuleAccount name w))))
  = GetSequence (fst (Ledger.getModuleAccount name w)).
Proof.
  unfold Ledger.getModuleAccount.
  destruct (Ledger.lookup String.eqb name (Ledger.moduleAccounts w)) eqn:H;
    cbn [fst snd].
  - now rewrite H.
  - cbn [Ledger.moduleAccounts Ledger.withModuleAccounts].
    now rewrite lookup_setSequence.
Qed.

Lemma InitGenesis_then_ExportGenesis_witness :
  exists w',
    InitGenesis (Samples.genesis "adym" false [] Samples.twoContracts)
      (Ledger.fresh false false 2) = Returns [] w'
    /\ deployerSequence w' = 2%N
    /\ List.length (VirtualFrontierContracts (ExportGenesis w')) = 2%nat.
Proof.
  exists (world_of (InitGenesis (Samples.genesis "adym" false [] Samples.twoContracts)
                      (Ledger.fresh false false 2))).
  split; [vm_compute; reflexivity|].
  split; [|vm_compute; reflexivity].
  rewrite (InitGenesis_then_ExportGenesis
             (Samples.genesis "adym" false [] Samples.twoContracts)
             (Ledger.fresh false false 2) _ []).
  - vm_compute. reflexivity.
  - intros name w0. apply getModuleAccount_contracts.
  - intros name w0. apply getModuleAccount_again.
  - vm_compute. reflexivity.
Defined.

Lemma GetMethodFromSignature_selector_only_witness :
  GetMethodFromSignature Tests.invalidVFBankContractMetadata
    ([xa9; x05; x9c; xbb] ++ [x01; x02])
  = GetMethodFromSignature Tests.validVFBankContractMetadata [xa9; x05; x9c; xbb; xff].
Proof.
  apply (GetMethodFromSignature_selector_only Tests.validVFBankContractMetadata
           Tests.invalidVFBankContractMetadata [xa9; x05; x9c; xbb; xff] [x01; x02]).
  simpl. lia.
Defined.

Lemma GetMethodFromSignature_one_selector_witness :
  firstn 4 [x70; xa0; x82; x31; x00] = firstn 4 [x70; xa0; x82; x31; xff; xff].
Proof.
  apply (GetMethodFromSignature_one_selector Tests.validVFBankContractMetadata
           [x70; xa0; x82; x31; x00] [x70; xa0; x82; x31; xff; xff] VFBCmBalanceOf);
    reflexivity.
Defined.

(** ** The stages, further *)

Section StagesFurther.

Context {World DenomMeta : Type} `{K : Collaborators World DenomMeta}.

Local Open Scope go_scope.

(** X14: the parameters are written before the module accounts are looked
    at: when the policy allows the genesis, a refusal by [SetParams] or a
    module account without an address makes [InitGenesis] panic on the
    world [SetParams] left, the EVM module account being looked at
    first. *)
Theorem InitGenesis_setUp_failures (data : GenesisState) (w : World) :
  IsOneOfDymensionChains w && EnableCreate (params data) = false ->
  (forall e,
      fst (SetParams (params data) (WithChainID w)) = Some e ->
      InitGenesis data w
      = Panics (ErrorSettingParams e) (snd (SetParams (params data) (WithChainID w))))
  /\ (fst (SetParams (params data) (WithChainID w)) = None ->
      GetModuleAddress ModuleName (snd (SetParams (params data) (WithChainID w))) = None ->
      InitGenesis data w
      = Panics EvmModuleAccountNotSet (snd (SetParams (params data) (WithChainID w))))
  /\ (fst (SetParams (params data) (WithChainID w)) = None ->
      GetModuleAddress ModuleName (snd (SetParams (params data) (WithChainID w))) <> None ->
      GetModuleAddress ModuleVirtualFrontierContractDeployerName
        (snd (SetParams (params data) (WithChainID w))) = None ->
      InitGenesis data w
      = Panics VfcDeployerAccountNotSet (snd (SetParams (params data) (WithChainID w)))).
Proof.
  intros Hpolicy.
  assert (Hstart : forall p w0, setUp data w = Panics p w0 ->
                                InitGenesis data w = Panics p w0).
  { intros p w0 Hsetup. unfold InitGenesis.
    destruct (policyPrecheck_inv data w) as [[_ Hp]|[Hbad _]]; [|congruence].
    rewrite (bind_Returns _ _ _ _ _ Hp). now apply bind_Panics. }
  repeat split.
  - intros e He. apply Hstart.
    unfold setUp, bind, modify, call, gets, panic, ret.
    destruct (SetParams (params data) (WithChainID w)) as [err w0].
    cbn [fst snd] in *. now subst err.
  - intros Hok Hevm. apply Hstart.
    unfold setUp, bind, modify, call, gets, panic, ret.
    destruct (SetParams (params data) (WithChainID w)) as [err w0].
    cbn [fst snd] in *. subst err. now rewrite Hevm.
  - intros Hok Hevm Hdeployer. apply Hstart.
    unfold setUp, bind, modify, call, gets, panic, ret.
    destruct (SetParams (params data) (WithChainID w)) as [err w0].
    cbn [fst snd] in *. subst err.
    destruct (GetModuleAddress ModuleName w0); [|contradiction].
    now rewrite Hdeployer.
Qed.

(** X15: for a denomination of ASCII text, when the deploy branch of the
    development-network step returns, it has deployed an active contract
    for the denomination on the very world it was given if the bank
    already had metadata for the denomination, and otherwise on that world
    with new metadata written first: base the denomination, display, name
    and symbol the denomination without its first byte in uppercase, units
    the base at exponent 0 and the display at exponent 18. *)
Theorem deployNativeBankContract_returns_inv (denom : string) (w w' : World) :
  isASCII denom = true ->
  deployNativeBankContract denom w = Returns tt w' ->
  (exists m dm a,
      GetDenomMetaData denom w = Some m
      /\ CollectMetadataForVirtualFrontierBankContract m = (dm, true)
      /\ DeployNewVirtualFrontierBankContract
           {| vfcAddress := ""; Active := true; Type_ := 0; Metadata := [] |}
           {| MinDenom := denom; Exponent := 0; DisplayName := "" |} dm w
         = (inr a, w'))
  \/ (exists c tail dm a,
        GetDenomMetaData denom w = None
        /\ denom = String c tail
        /\ CollectMetadataForVirtualFrontierBankContract
             {| DenomUnits := [ {| duDenom := denom; duExponent := 0 |};
                                {| duDenom := ToUpper tail; duExponent := 18 |} ];
                Base := denom; Display := ToUpper tail;
                Name := ToUpper tail; Symbol := ToUpper tail |}
           = (dm, true)
        /\ DeployNewVirtualFrontierBankContract
             {| vfcAddress := ""; Active := true; Type_ := 0; Metadata := [] |}
             {| MinDenom := denom; Exponent := 0; DisplayName := "" |} dm
             (SetDenomMetaData
                {| DenomUnits := [ {| duDenom := denom; duExponent := 0 |};
                                   {| duDenom := ToUpper tail; duExponent := 18 |} ];
                   Base := denom; Display := ToUpper tail;
                   Name := ToUpper tail; Symbol := ToUpper tail |} w)
           = (inr a, w')).
Proof.
  intros _.
  unfold deployNativeBankContract, bind, gets, call, ret, panic, modify.
  destruct (GetDenomMetaData denom w) as [meta|].
  - destruct (CollectMetadataForVirtualFrontierBankContract meta) as [dm valid] eqn:Hc.
    destruct valid; cbn [negb]; [|discriminate].
    destruct (DeployNewVirtualFrontierBankContract _ _ dm w) as [[err|a] w2] eqn:Hd;
      [discriminate|].
    intros [= <-]. left. exists meta, dm, a. auto.
  - destruct denom as [|c tail]; cbn [slice_from]; [discriminate|].
    destruct (CollectMetadataForVirtualFrontierBankContract _) as [dm valid] eqn:Hc.
    destruct valid; cbn [negb]; [|discriminate].
    destruct (DeployNewVirtualFrontierBankContract _ _ dm _) as [[err|a] w2] eqn:Hd;
      [discriminate|].
    intros [= <-]. right. exists c, tail, dm, a. auto.
Qed.

(** X16: after the stages before it, the bulk import is skipped for an
    empty list of contract records, the final check running on the world
    as it stands; for a non-empty list, an error from the import makes
    [InitGenesis] panic with that error, on the world the import left, and
    the final check is not run. *)
Theorem InitGenesis_bulk_import (data : GenesisState) (w w2 : World) :
  (policyPrecheck data ;; setUp data ;; importAccounts (Accounts data) ;;
   devnetBootstrap data) w = Returns tt w2 ->
  (VirtualFrontierContracts data = [] ->
   InitGenesis data w = (ensureDeployerSequence ;; ret []) w2)
  /\ (VirtualFrontierContracts data <> [] ->
      forall e w3,
        GenesisImportVirtualFrontierContracts (VirtualFrontierContracts data) w2
        = (Some e, w3) ->
        InitGenesis data w = Panics (ImportError e) w3).
Proof.
  intros Hpre.
  apply bind_returns_inv in Hpre as ([] & wa & Hpolicy & Hpre).
  apply bind_returns_inv in Hpre as ([] & wb & Hsetup & Hpre).
  apply bind_returns_inv in Hpre as ([] & wc & Hacc & Hdev).
  assert (Hrest : InitGenesis data w
                  = (importVirtualFrontierContracts data ;;
                     ensureDeployerSequence ;; ret []) w2).
  { unfold InitGenesis.
    rewrite (bind_Returns _ _ _ _ _ Hpolicy), (bind_Returns _ _ _ _ _ Hsetup),
      (bind_Returns _ _ _ _ _ Hacc), (bind_Returns _ _ _ _ _ Hdev).
    reflexivity. }
  rewrite Hrest. split.
  - intros Hnil. unfold importVirtualFrontierContracts. rewrite Hnil. reflexivity.
  - intros Hsome e w3 Himport. apply bind_Panics.
    unfold importVirtualFrontierContracts, bind, call, panic.
    destruct (VirtualFrontierContracts data); [contradiction|].
    cbn [List.length Nat.ltb Nat.leb]. now rewrite Himport.
Qed.

End StagesFurther.

#[local] Existing Instance Ledger.keepers.

Lemma InitGenesis_setUp_failures_witness :
  InitGenesis (Samples.genesis "adym" false [] [])
    (Ledger.withModuleAccounts [(Ledger.evm, 0%N)] (Ledger.fresh false false 0))
  = Panics VfcDeployerAccountNotSet
      (snd (SetParams (params (Samples.genesis "adym" false [] []))
              (WithChainID
                 (Ledger.withModuleAccounts [(Ledger.evm, 0%N)]
                    (Ledger.fresh false false 0))))).
Proof.
  destruct (InitGenesis_setUp_failures (Samples.genesis "adym" false [] [])
              (Ledger.withModuleAccounts [(Ledger.evm, 0%N)]
                 (Ledger.fresh false false 0)))
    as (_ & _ & H); [reflexivity|].
  apply H; [reflexivity|discriminate|reflexivity].
Defined.

Lemma deployNativeBankContract_returns_inv_witness :
  exists w',
    deployNativeBankContract "aphoton" (Ledger.fresh false true 0) = Returns tt w'
    /\ Ledger.getDenomMetaData "aphoton" w'
       = Some {| DenomUnits := [ {| duDenom := "aphoton"; duExponent := 0 |};
                                 {| duDenom := "PHOTON"; duExponent := 18 |} ];
                 Base := "aphoton"; Display := "PHOTON";
                 Name := "PHOTON"; Symbol := "PHOTON" |}.
Proof.
  exists (world_of (deployNativeBankContract "aphoton" (Ledger.fresh false true 0))).
  split; [vm_compute; reflexivity|].
  destruct (deployNativeBankContract_returns_inv "aphoton" (Ledger.fresh false true 0)
              (world_of (deployNativeBankContract "aphoton" (Ledger.fresh false true 0))))
    as [(m & dm & a & Hmeta & _)|(c & tail & dm & a & _ & Hdenom & _ & Hdeploy)];
    [reflexivity|vm_compute; reflexivity|discriminate|].
  injection Hdenom as <- <-. vm_compute. reflexivity.
Defined.

Lemma InitGenesis_bulk_import_witness :
  exists e w3,
    InitGenesis
      (Samples.genesis "adym" false []
         [Tests.bankContract "0x0000000000000000000000000000000000000000" Samples.wei])
      (Ledger.fresh false false 1)
    = Panics (ImportError e) w3.
Proof.
  do 2 eexists.
  eapply (InitGenesis_bulk_import
            (Samples.genesis "adym" false []
               [Tests.bankContract "0x0000000000000000000000000000000000000000" Samples.wei])
            (Ledger.fresh false false 1)).
  - reflexivity.
  - discriminate.
  - reflexivity.
Defined.
